(** * spacy-huggingface-hub: the model-card synthesis of [push_cli.py]

    A shallow embedding of the metadata functions of
    [src/spacy_huggingface_hub/push_cli.py] ([_insert_value],
    [_insert_values_as_list], [_create_metric], [_create_p_r_f_list],
    [_create_model_index], [_create_model_card]) together with the properties
    of the card they build.

    Python values are the ones [json.load] produces; a Python [dict] is an
    association list in insertion order (the order [yaml.dump] with
    [sort_keys=False] prints), exceptions are an error monad, and the two
    files the card touches live in a finite map from paths to nodes. *)

From Stdlib Require Import PrimFloat ZArith Ascii String.
From stdpp Require Import base strings list gmap.

Set Warnings "-inexact-float,-register-all".

(** ** Python values *)

(** What [json.load] returns: [None], [bool], [int], [float], [str], [list]
    and [dict] with string keys.  Strings are byte strings; every string the
    program compares against or substitutes is ASCII. *)
Inductive value : Type :=
  | VNone
  | VBool (b : bool)
  | VInt (z : Z)
  | VFloat (f : float)
  | VStr (s : string)
  | VList (l : list value)
  | VDict (d : list (string * value)).

Abbreviation dict := (list (string * value)).

(** ** Exceptions *)

Inductive exn : Type :=
  | KeyError (key : string)
  | TypeError
  | AttributeError
  | FileNotFoundError
  | IsADirectoryError
  | PermissionError
  | UnicodeDecodeError
  | JSONDecodeError.

Inductive result (A : Type) : Type :=
  | Ok (a : A)
  | Raise (e : exn).
Arguments Ok {A} a.
Arguments Raise {A} e.

#[global] Instance result_ret : MRet result := λ A a, Ok a.
#[global] Instance result_bind : MBind result := λ A B f m,
  match m with
  | Ok a => f a
  | Raise e => Raise e
  end.

Definition succeeds {A : Type} (m : result A) : bool :=
  match m with
  | Ok _ => true
  | Raise _ => false
  end.

(** ** Dictionaries in insertion order *)

Module Dict.

(** [d[k]] / [d.get(k)]: the value bound to [k], if any. *)
Fixpoint get (k : string) (d : dict) : option value :=
  match d with
  | [] => None
  | (k', v) :: d' => if String.eqb k k' then Some v else get k d'
  end.

(** [k in d]. *)
Definition mem (k : string) (d : dict) : bool :=
  existsb (String.eqb k) d.*1.

(** [d[k] = v]: an existing key keeps its position, a new key goes last. *)
Fixpoint set (k : string) (v : value) (d : dict) : dict :=
  match d with
  | [] => [(k, v)]
  | (k', v') :: d' =>
      if String.eqb k k' then (k', v) :: d' else (k', v') :: set k v d'
  end.

End Dict.

(** ** The Python operations the module applies to loaded values *)

(** [v == s] for a string literal [s]: only a [str] equals a [str]. *)
Definition value_eqb_str (v : value) (s : string) : bool :=
  match v with
  | VStr t => String.eqb t s
  | _ => false
  end.

(** [v is None]. *)
Definition is_none (v : value) : bool :=
  match v with
  | VNone => true
  | _ => false
  end.

(** [isinstance(v, str)]. *)
Definition is_str (v : value) : bool :=
  match v with
  | VStr _ => true
  | _ => false
  end.

(** [p in s] on two strings: [p] occurs in [s]. *)
Fixpoint is_substring (p s : string) : bool :=
  String.prefix p s ||
  match s with
  | EmptyString => false
  | String _ s' => is_substring p s'
  end.

(** [v in l] for a list [l] of string literals. *)
Definition value_in (v : value) (l : list string) : bool :=
  existsb (value_eqb_str v) l.

(** [s in tags] for a list of strings. *)
Definition str_in (s : string) (l : list string) : bool :=
  existsb (String.eqb s) l.

(** [v[k]] with a string subscript: a lookup on a [dict], a [TypeError] on
    every other loaded value. *)
Definition py_getitem (v : value) (k : string) : result value :=
  match v with
  | VDict d =>
      match Dict.get k d with
      | Some x => Ok x
      | None => Raise (KeyError k)
      end
  | _ => Raise TypeError
  end.

(** [k in v] with a string [k]: key membership on a [dict], element
    membership on a [list], substring test on a [str], [TypeError]
    otherwise. *)
Definition py_contains (k : string) (v : value) : result bool :=
  match v with
  | VDict d => Ok (Dict.mem k d)
  | VList l => Ok (existsb (λ x, value_eqb_str x k) l)
  | VStr s => Ok (is_substring k s)
  | _ => Raise TypeError
  end.

(** [v.get(k, default)]: only a [dict] has the method. *)
Definition py_get (v : value) (k : string) (default : value) : result value :=
  match v with
  | VDict d =>
      match Dict.get k d with
      | Some x => Ok x
      | None => Ok default
      end
  | _ => Raise AttributeError
  end.

(** [s.replace(old, new)] for one-character [old] and [new]. *)
Fixpoint str_replace (old new : ascii) (s : string) : string :=
  match s with
  | EmptyString => EmptyString
  | String c s' =>
      String (if Ascii.eqb c old then new else c) (str_replace old new s')
  end.

(** [v.replace(old, new)]: only a [str] has the method. *)
Definition py_replace (v : value) (old new : ascii) : result value :=
  match v with
  | VStr s => Ok (VStr (str_replace old new s))
  | _ => Raise AttributeError
  end.

(** The characters of a string, each as a one-character string. *)
Fixpoint str_chars (s : string) : list value :=
  match s with
  | EmptyString => []
  | String c s' => VStr (String c EmptyString) :: str_chars s'
  end.

(** [for x in v]: the elements of a [list], the characters of a [str], the
    keys of a [dict]; [TypeError] otherwise. *)
Definition py_iter (v : value) : result (list value) :=
  match v with
  | VList l => Ok l
  | VStr s => Ok (str_chars s)
  | VDict d => Ok (VStr <$> d.*1)
  | _ => Raise TypeError
  end.

(** [len(v)]. *)
Definition py_len (v : value) : result nat :=
  match v with
  | VList l => Ok (length l)
  | VStr s => Ok (String.length s)
  | VDict d => Ok (length d)
  | _ => Raise TypeError
  end.

(** ** push_cli.py, lines 48-79 *)

Definition token_classification_components : list string :=
  ["ner"; "tagger"; "morphologizer"].
Definition text_classification_components : list string :=
  ["textcat"; "textcat_multilabel"].

Definition _insert_value (metadata : dict) (name : string) (v : value) : dict :=
  if is_none v || value_eqb_str v "" then metadata
  else Dict.set name v metadata.

Definition _insert_values_as_list (metadata : dict) (name : string)
    (values : value) : result dict :=
  if is_none values then Ok metadata
  else
    let values := if is_str values then VList [values] else values in
    n ← py_len values;
    if Nat.eqb n 0 then Ok metadata
    else Ok (Dict.set name values metadata).

Definition _create_metric (name t : string) (v : value) : value :=
  VDict [("name", VStr name); ("type", VStr t); ("value", v)].

Definition _create_p_r_f_list (precision recall f_score : value) : list value :=
  let precision := _create_metric "Precision" "precision" precision in
  let recall := _create_metric "Recall" "recall" recall in
  let f_score := _create_metric "F Score" "f_score" f_score in
  [precision; recall; f_score].

(** ** push_cli.py, lines 82-148 *)

(** The dict literal [{"tasks": {"name": .., "type": "token-classification",
    "metrics": ..}}] that each of the five branches appends. *)
Definition task_result (name : string) (metrics : list value) : value :=
  VDict [("tasks",
          VDict [("name", VStr name);
                 ("type", VStr "token-classification");
                 ("metrics", VList metrics)])].

Definition _create_model_index (repo_name : string) (data : value)
    : result value :=
  let model_index : dict := [("name", VStr repo_name)] in
  let results : list value := [] in
  b ← py_contains "ents_p" data;
  results ← (if b : bool then
               p ← py_getitem data "ents_p";
               r ← py_getitem data "ents_r";
               f ← py_getitem data "ents_f";
               mret (results ++ [task_result "NER" (_create_p_r_f_list p r f)])
             else mret results);
  b ← py_contains "tag_acc" data;
  results ← (if b : bool then
               a ← py_getitem data "tag_acc";
               mret (results ++
                     [task_result "POS" [_create_metric "Accuracy" "accuracy" a]])
             else mret results);
  b ← py_contains "sents_p" data;
  results ← (if b : bool then
               p ← py_getitem data "sents_p";
               r ← py_getitem data "sents_r";
               f ← py_getitem data "sents_f";
               mret (results ++ [task_result "SENTER" (_create_p_r_f_list p r f)])
             else mret results);
  b ← py_contains "dep_uas" data;
  results ← (if b : bool then
               a ← py_getitem data "dep_uas";
               mret (results ++
                     [task_result "UNLABELED_DEPENDENCIES"
                        [_create_metric "Accuracy" "accuracy" a]])
             else mret results);
  b ← py_contains "dep_las" data;
  results ← (if b : bool then
               a ← py_getitem data "dep_uas";
               mret (results ++
                     [task_result "LABELED_DEPENDENCIES"
                        [_create_metric "Accuracy" "accuracy" a]])
             else mret results);
  mret (VDict (Dict.set "results" (VList results) model_index)).

(** ** push_cli.py, lines 154-172: the card as a dict *)

(** One pass of the [for component in data["components"]] body. *)
Definition tags_step (tags : list string) (component : value) : list string :=
  let tags :=
    if value_in component token_classification_components
       && negb (str_in "token-classification" tags)
    then tags ++ ["token-classification"] else tags in
  let tags :=
    if value_in component text_classification_components
       && negb (str_in "text-classification" tags)
    then tags ++ ["text-classification"] else tags in
  tags.

(** The loop of lines 156-167, started from [tags = ["spacy"]]. *)
Definition component_tags (components : list value) : list string :=
  fold_left tags_step components ["spacy"].

(** Lines 154-172 of [_create_model_card], on the loaded manifest [data]:
    the dict handed to [yaml.dump]. *)
Definition card_metadata (repo_name : string) (data : value) : result dict :=
  c ← py_getitem data "lang";
  lang ← (if negb (value_eqb_str c "xx") then py_getitem data "lang"
          else mret (VStr "multilingual"));
  l ← py_get data "license" (VStr "");
  lic ← py_replace l " " "-";
  cs ← py_getitem data "components";
  components ← py_iter cs;
  let tags := component_tags components in
  metadata ← _insert_values_as_list [] "tags" (VList (VStr <$> tags));
  metadata ← _insert_values_as_list metadata "language" lang;
  let metadata := _insert_value metadata "license" lic in
  perf ← py_getitem data "performance";
  index ← _create_model_index repo_name perf;
  mret (Dict.set "model-index" index metadata).

(** ** The two files of the repository directory *)

(** A file holds its bytes and whether the process may open it for reading
    and for writing.  A Python [str] is identified with its encoding in the
    codec of the locale, so that writing text stores it as it is; reading in
    text mode does two things more, given below. *)
Inductive node : Type :=
  | File (content : string) (readable writable : bool)
  | Dir.

Abbreviation filesystem := (gmap string node).

(** The line feed of the Python literals ["---\n"], and the carriage
    return. *)
Definition LF : string := String "010" EmptyString.
Definition CR : ascii := "013"%char.

Fixpoint ends_with_sep (p : string) : bool :=
  match p with
  | EmptyString => false
  | String c EmptyString => Ascii.eqb c "/"
  | String _ p' => ends_with_sep p'
  end.

(** [os.path.join(a, b)] on POSIX for a relative [b]. *)
Definition os_path_join (a b : string) : string :=
  if String.eqb a "" || ends_with_sep a then a +:+ b else a +:+ "/" +:+ b.

(** [os.path.isfile(path)]. *)
Definition isfile (path : string) (fs : filesystem) : bool :=
  match fs !! path with
  | Some (File _ _ _) => true
  | _ => false
  end.

(** What text mode makes of the line ends it reads ([newline=None]): a
    carriage return followed by a line feed, and a carriage return alone,
    become one line feed. *)
Fixpoint universal_newlines (s : string) : string :=
  match s with
  | EmptyString => EmptyString
  | String c s' =>
      if Ascii.eqb c CR then
        match s' with
        | String c' s'' =>
            if Ascii.eqb c' "010"
            then String "010" (universal_newlines s'')
            else String "010" (universal_newlines s')
        | EmptyString => String "010" EmptyString
        end
      else String c (universal_newlines s')
  end.

(** [open(path).read()] in text mode.  [decodes] tells which byte strings
    the codec of the locale accepts. *)
Definition read_text (decodes : string → bool) (path : string)
    (fs : filesystem) : result string :=
  match fs !! path with
  | Some (File content readable _) =>
      if negb readable then Raise PermissionError
      else if negb (decodes content) then Raise UnicodeDecodeError
      else Ok (universal_newlines content)
  | Some Dir => Raise IsADirectoryError
  | None => Raise FileNotFoundError
  end.

(** [open(path, "w")]: the file is created or truncated.  The directory of
    [path] is the one [meta.json] was just read from. *)
Definition open_w (path : string) (fs : filesystem) : result filesystem :=
  match fs !! path with
  | Some Dir => Raise IsADirectoryError
  | Some (File _ readable writable) =>
      if writable then Ok (<[path := File "" readable writable]> fs)
      else Raise PermissionError
  | None => Ok (<[path := File "" true true]> fs)
  end.

(** [f.write(text)] on the handle opened on [path]; on POSIX a line feed is
    written as it is. *)
Definition write (path text : string) (fs : filesystem) : filesystem :=
  match fs !! path with
  | Some (File content readable writable) =>
      <[path := File (content +:+ text) readable writable]> fs
  | _ => fs
  end.

(** ** push_cli.py, lines 151-185 *)

Section ModelCard.

(** [yaml.dump(_, sort_keys=False)] and [json.load] belong to PyYAML and to
    the Python library; the card code only passes values through them.  The
    codec is the one of the locale. *)
Variable yaml_dump : value → string.
Variable json_load : string → result value.
Variable decodes : string → bool.

(** The f-string of line 174. *)
Definition metadata_section (metadata : string) : string :=
  "---" +:+ LF +:+ metadata +:+ "---" +:+ LF.

Definition _create_model_card (repo_name repo_dir : string)
    (fs : filesystem) : result filesystem :=
  f ← read_text decodes (os_path_join repo_dir "meta.json") fs;
  data ← json_load f;
  metadata ← card_metadata repo_name data;
  let metadata := yaml_dump (VDict metadata) in
  let metadata_section := metadata_section metadata in
  let readme_path := os_path_join repo_dir "README.md" in
  let readme := "" in
  readme ← (if isfile readme_path fs then read_text decodes readme_path fs
            else mret readme);
  fs ← open_w readme_path fs;
  let fs := write readme_path metadata_section fs in
  let fs := write readme_path readme fs in
  mret fs.

End ModelCard.

(** ** Vocabulary of the properties *)

(** The card fields, read back from the dict. *)
Definition card_tags (md : dict) : option value := Dict.get "tags" md.
Definition card_language (md : dict) : option value := Dict.get "language" md.
Definition card_license (md : dict) : option value := Dict.get "license" md.
Definition card_model_index (md : dict) : option value :=
  Dict.get "model-index" md.

(** The [results] list of a model index. *)
Definition index_results (index : value) : option (list value) :=
  match index with
  | VDict i =>
      match Dict.get "results" i with
      | Some (VList rs) => Some rs
      | _ => None
      end
  | _ => None
  end.

(** The task label and the metrics of a task-result entry. *)
Definition task_field (field : string) (entry : value) : option value :=
  match entry with
  | VDict e =>
      match Dict.get "tasks" e with
      | Some (VDict t) => Dict.get field t
      | _ => None
      end
  | _ => None
  end.

Definition task_name (entry : value) : option string :=
  match task_field "name" entry with
  | Some (VStr n) => Some n
  | _ => None
  end.

Definition has_task_name (n : string) (entry : value) : bool :=
  match task_name entry with
  | Some m => String.eqb m n
  | None => false
  end.

(** The five metric groups in the order the code tests them: task label and
    the key whose presence selects the group. *)
Definition metric_groups : list (string * string) :=
  [("NER", "ents_p"); ("POS", "tag_acc"); ("SENTER", "sents_p");
   ("UNLABELED_DEPENDENCIES", "dep_uas"); ("LABELED_DEPENDENCIES", "dep_las")].

Definition present_tasks (d : dict) : list string :=
  (List.filter (λ g, Dict.mem g.2 d) metric_groups).*1.

(** The keys a branch reads are there whenever the key it tests is. *)
Definition prf_complete (d : dict) : bool :=
  implb (Dict.mem "ents_p" d) (Dict.mem "ents_r" d && Dict.mem "ents_f" d)
  && implb (Dict.mem "sents_p" d) (Dict.mem "sents_r" d && Dict.mem "sents_f" d).

Definition groups_complete (d : dict) : bool :=
  prf_complete d && implb (Dict.mem "dep_las" d) (Dict.mem "dep_uas" d).

(** A manifest of the shape the data model gives it: [lang] a string,
    [license] absent or a string, [components] a list, [performance] a
    mapping whose groups are complete. *)
Definition well_formed (data : dict) : bool :=
  match Dict.get "lang" data with Some (VStr _) => true | _ => false end
  && match Dict.get "license" data with
     | None | Some (VStr _) => true
     | _ => false
     end
  && match Dict.get "components" data with Some (VList _) => true | _ => false end
  && match Dict.get "performance" data with
     | Some (VDict d) => groups_complete d
     | _ => false
     end.

(** The fields that are there have the shape of the data model. *)
Definition well_typed_fields (data : dict) : bool :=
  match Dict.get "lang" data with None | Some (VStr _) => true | _ => false end
  && match Dict.get "license" data with
     | None | Some (VStr _) => true
     | _ => false
     end
  && match Dict.get "components" data with
     | None | Some (VList _) => true
     | _ => false
     end.

(** The first required key, in the order the code reads them, that the
    manifest lacks. *)
Definition first_missing (data : dict) : option string :=
  if negb (Dict.mem "lang" data) then Some "lang"
  else if negb (Dict.mem "components" data) then Some "components"
  else if negb (Dict.mem "performance" data) then Some "performance"
  else None.

Definition is_token_component (c : value) : bool :=
  value_in c token_classification_components.
Definition is_text_component (c : value) : bool :=
  value_in c text_classification_components.

(** Position of the first element that satisfies [p]. *)
Fixpoint first_index {A : Type} (p : A → bool) (l : list A) : option nat :=
  match l with
  | [] => None
  | x :: l' => if p x then Some 0 else S <$> first_index p l'
  end.

(** The tags as the specification words them: the base tag, then one tag per
    class that has a component, ordered by the position of the first
    component of each class. *)
Definition first_match_tags (components : list value) : list string :=
  "spacy" ::
  match first_index is_token_component components,
        first_index is_text_component components with
  | None, None => []
  | Some _, None => ["token-classification"]
  | None, Some _ => ["text-classification"]
  | Some i, Some j =>
      if i <? j then ["token-classification"; "text-classification"]
      else ["text-classification"; "token-classification"]
  end.

(** [a] occurs in [l] and its first occurrence is before the first [b]. *)
Definition appears_before (a b : string) (l : list string) : bool :=
  match first_index (String.eqb a) l, first_index (String.eqb b) l with
  | Some i, Some j => i <? j
  | _, _ => false
  end.

(** Number of occurrences of a tag. *)
Definition count_tag (t : string) (l : list string) : nat :=
  length (List.filter (String.eqb t) l).

(** The language entry for a manifest language code. *)
Definition language_of (lang : string) : string :=
  if String.eqb lang "xx" then "multilingual" else lang.

(** The README text before the run: [""] when there is no such file. *)
Definition prior_content (path : string) (fs : filesystem) : string :=
  match fs !! path with
  | Some (File content _ _) => content
  | _ => ""
  end.

(** The README can be read and rewritten: there is none yet, or it is a
    file the process may read and write and whose bytes decode. *)
Definition can_rewrite (decodes : string → bool) (path : string)
    (fs : filesystem) : bool :=
  match fs !! path with
  | None => true
  | Some (File content readable writable) =>
      readable && writable && decodes content
  | Some Dir => false
  end.

(** The [license] item of the card, from the manifest. *)
Definition license_entry (data : dict) : dict :=
  match Dict.get "license" data with
  | Some (VStr s) =>
      if String.eqb s "" then [] else [("license", VStr (str_replace " " "-" s))]
  | _ => []
  end.

(** A null, an empty string or an empty list. *)
Definition is_placeholder (v : value) : bool :=
  match v with
  | VNone => true
  | VStr s => String.eqb s ""
  | VList [] => true
  | _ => false
  end.

(** All three required keys are there. *)
Definition has_required_keys (data : dict) : bool :=
  Dict.mem "lang" data && Dict.mem "components" data
  && Dict.mem "performance" data.

(** A string that is one of [names]. *)
Definition is_one_of (names : list string) (c : value) : bool :=
  match c with
  | VStr s => existsb (String.eqb s) names
  | _ => false
  end.

(** ** Sample manifests and files *)

Module Samples.

Definition ner_manifest : dict :=
  [("lang", VStr "en"); ("license", VStr "MIT License");
   ("components", VList [VStr "ner"]);
   ("performance",
    VDict [("ents_p", VFloat 0.9); ("ents_r", VFloat 0.8);
           ("ents_f", VFloat 0.85)])].

Definition pos_manifest : dict :=
  [("lang", VStr "xx"); ("components", VList []);
   ("performance", VDict [("tag_acc", VFloat 0.95)])].

Definition bare_manifest : dict :=
  [("lang", VStr "en"); ("components", VList []); ("performance", VDict [])].

Definition no_components_manifest : dict :=
  [("lang", VStr "en"); ("performance", VDict [])].

Definition parser_scores : dict :=
  [("dep_las", VFloat 0.75); ("tag_acc", VFloat 0.5);
   ("dep_uas", VFloat 0.875)].

(** The card of [ner_manifest] for the repository [m]. *)
Definition ner_card : dict :=
  [("tags", VList [VStr "spacy"; VStr "token-classification"]);
   ("language", VList [VStr "en"]);
   ("license", VStr "MIT-License");
   ("model-index",
    VDict [("name", VStr "m");
           ("results",
            VList [task_result "NER"
                     (_create_p_r_f_list (VFloat 0.9) (VFloat 0.8)
                        (VFloat 0.85))])])].

Definition labeled_only_scores : dict := [("dep_las", VFloat 0.75)].

Definition textcat_then_ner : list value := [VStr "textcat"; VStr "ner"].

(** Stand-ins for the two library functions: a dump that prints the top
    level keys, one per line, and a loader that knows one document. *)
Definition dump_keys (v : value) : string :=
  match v with
  | VDict d => foldr (λ kv acc, kv.1 +:+ ":" +:+ LF +:+ acc) "" d
  | _ => "null" +:+ LF
  end.

Definition load_ner_manifest (text : string) : result value :=
  if String.eqb text "ner" then Ok (VDict ner_manifest)
  else Raise JSONDecodeError.

Definition repo_files : filesystem :=
  {[ "hub/m/meta.json" := File "ner" true false;
     "hub/m/README.md" := File "# m" true true ]}.

(** A README with a Windows line end and an old Mac line end. *)
Definition crlf_readme : string :=
  "a" +:+ String CR LF +:+ "b" +:+ String CR "c".

Definition crlf_files : filesystem :=
  {[ "hub/m/meta.json" := File "ner" true false;
     "hub/m/README.md" := File crlf_readme true true ]}.

(** The codec that accepts every byte string (Latin-1), and the one that
    accepts seven-bit bytes only (ASCII). *)
Definition latin1 (bytes : string) : bool := true.

Fixpoint ascii_only (bytes : string) : bool :=
  match bytes with
  | EmptyString => true
  | String c bytes' => (nat_of_ascii c <? 128) && ascii_only bytes'
  end.

End Samples.

(** ** Further vocabulary *)

(** The keys whose values [_create_model_index] reads, and the keys whose
    presence it tests. *)
Definition value_keys : list string :=
  ["ents_p"; "ents_r"; "ents_f"; "tag_acc"; "sents_p"; "sents_r"; "sents_f";
   "dep_uas"].
Definition test_keys : list string :=
  ["ents_p"; "tag_acc"; "sents_p"; "dep_uas"; "dep_las"].

(** The keys [_create_model_card] reads from the manifest. *)
Definition manifest_keys : list string :=
  ["lang"; "license"; "components"; "performance"].

(** The five branches as a table: task label, the key tested, and for each
    metric its name, its type and the key its value is read from. *)
Definition metric_table : list (string * string * list (string * string * string)) :=
  [("NER", "ents_p",
    [("Precision", "precision", "ents_p"); ("Recall", "recall", "ents_r");
     ("F Score", "f_score", "ents_f")]);
   ("POS", "tag_acc", [("Accuracy", "accuracy", "tag_acc")]);
   ("SENTER", "sents_p",
    [("Precision", "precision", "sents_p"); ("Recall", "recall", "sents_r");
     ("F Score", "f_score", "sents_f")]);
   ("UNLABELED_DEPENDENCIES", "dep_uas", [("Accuracy", "accuracy", "dep_uas")]);
   ("LABELED_DEPENDENCIES", "dep_las", [("Accuracy", "accuracy", "dep_uas")])].

Fixpoint table_metrics (d : dict) (ms : list (string * string * string))
    : result (list value) :=
  match ms with
  | [] => Ok []
  | (name, t, key) :: ms' =>
      v ← py_getitem (VDict d) key;
      rest ← table_metrics d ms';
      mret (_create_metric name t v :: rest)
  end.

Fixpoint table_results (d : dict)
    (groups : list (string * string * list (string * string * string)))
    : result (list value) :=
  match groups with
  | [] => Ok []
  | (label, key, ms) :: groups' =>
      if Dict.mem key d then
        metrics ← table_metrics d ms;
        rest ← table_results d groups';
        mret (task_result label metrics :: rest)
      else table_results d groups'
  end.

Definition table_index (repo_name : string) (d : dict) : result value :=
  rs ← table_results d metric_table;
  mret (VDict [("name", VStr repo_name); ("results", VList rs)]).

(** The value line 154 binds to [lang]. *)
Definition lang_value (c : value) : value :=
  if value_eqb_str c "xx" then VStr "multilingual" else c.

(** The [license] key is absent or holds a string. *)
Definition license_ok (data : dict) : bool :=
  match Dict.get "license" data with
  | None | Some (VStr _) => true
  | _ => false
  end.

(** The three tags a card can carry. *)
Definition all_tags : list string :=
  ["spacy"; "token-classification"; "text-classification"].

(** A component that belongs to one of the two fixed sets. *)
Definition is_classified (c : value) : bool :=
  is_token_component c || is_text_component c.

(** The character [c] occurs in [s]. *)
Fixpoint has_char (c : ascii) (s : string) : bool :=
  match s with
  | EmptyString => false
  | String c' s' => Ascii.eqb c' c || has_char c s'
  end.

(** Number of occurrences of the character [c] in [s]. *)
Fixpoint count_char (c : ascii) (s : string) : nat :=
  match s with
  | EmptyString => 0
  | String c' s' => (if Ascii.eqb c' c then 1 else 0) + count_char c s'
  end.

(** [n] copies of [s]. *)
Fixpoint str_repeat (n : nat) (s : string) : string :=
  match n with
  | 0 => ""
  | S n' => str_repeat n' s +:+ s
  end.

(** ** push_cli.py, lines 192-195, 213, 219 and 233: the names of [push] *)

(** The outcome of a tuple assignment: the values, or the [ValueError] of a
    sequence of another length. *)
Inductive unpacked (A : Type) : Type :=
  | Unpacked (a : A)
  | ValueError.
Arguments Unpacked {A} a.
Arguments ValueError {A}.

(** [s.split(sep)] for a one-character [sep]. *)
Fixpoint str_split (sep : ascii) (s : string) : list string :=
  match s with
  | EmptyString => [EmptyString]
  | String c s' =>
      if Ascii.eqb c sep then EmptyString :: str_split sep s'
      else match str_split sep s' with
           | [] => [String c EmptyString]
           | part :: parts => String c part :: parts
           end
  end.

(** [sep.join(parts)] for a one-character [sep]. *)
Fixpoint str_join (sep : ascii) (parts : list string) : string :=
  match parts with
  | [] => EmptyString
  | [part] => part
  | part :: parts' => part +:+ String sep (str_join sep parts')
  end.

(** [os.path.basename(p)] on POSIX: what follows the last slash. *)
Definition basename (p : string) : string :=
  List.last (str_split "/" p) EmptyString.

Module Push.

Record push_names : Type := PushNames {
  repo_name : string;
  version : string;
  versioned_name : string;
  repo_local_path : string;
  base_name : string;
  extracted_dir : string;
  dst_file : string
}.

(** The names [push] computes from the path of the wheel, before and
    between its calls to the hub, the archive and the file system. *)
Definition push_derived_names (whl_path : string) : unpacked push_names :=
  let filename := basename whl_path in
  match str_split "-" filename with
  | [repo_name; version; _; _; _] =>
      let versioned_name := repo_name +:+ "-" +:+ version in
      let repo_local_path := os_path_join "hub" repo_name in
      Unpacked {|
        repo_name := repo_name;
        version := version;
        versioned_name := versioned_name;
        repo_local_path := repo_local_path;
        base_name := os_path_join repo_name versioned_name;
        extracted_dir := os_path_join repo_local_path versioned_name;
        dst_file := os_path_join repo_local_path
                      (repo_name +:+ "-any-py3-none-any.whl")
      |}
  | _ => ValueError
  end.

(** The archive members [push] extracts (lines 214-216). *)
Definition extracted_members (base_name : string) (namelist : list string)
    : list string :=
  List.filter (String.prefix base_name) namelist.

End Push.

(** ** Repeated runs of [_create_model_card] *)

Section RepeatedRuns.

Variable yaml_dump : value → string.
Variable json_load : string → result value.
Variable decodes : string → bool.

Fixpoint create_model_card_times (n : nat) (repo_name repo_dir : string)
    (fs : filesystem) : result filesystem :=
  match n with
  | 0 => Ok fs
  | S n' =>
      fs' ← _create_model_card yaml_dump json_load decodes repo_name repo_dir
              fs;
      create_model_card_times n' repo_name repo_dir fs'
  end.

End RepeatedRuns.

(** ** Further samples *)

Module MoreSamples.

Definition wheel_path : string :=
  "dist/en_core_web_sm-3.0.0-py3-none-any.whl".

Definition full_scores : dict :=
  [("speed", VFloat 1000.5); ("ents_p", VFloat 0.9); ("ents_r", VFloat 0.8);
   ("ents_f", VFloat 0.85); ("dep_uas", VFloat 0.875);
   ("dep_las", VFloat 0.75)].

Definition null_lang_manifest : dict :=
  [("lang", VNone); ("components", VList [VStr "ner"]);
   ("performance", VDict [])].

Definition null_license_manifest : dict :=
  [("lang", VStr "en"); ("license", VNone)].

Definition string_components_manifest : dict :=
  [("lang", VStr "en"); ("components", VStr "ner"); ("performance", VDict [])].

Definition wheel_names : Push.push_names :=
  {| Push.repo_name := "en_core_web_sm";
     Push.version := "3.0.0";
     Push.versioned_name := "en_core_web_sm-3.0.0";
     Push.repo_local_path := "hub/en_core_web_sm";
     Push.base_name := "en_core_web_sm/en_core_web_sm-3.0.0";
     Push.extracted_dir := "hub/en_core_web_sm/en_core_web_sm-3.0.0";
     Push.dst_file := "hub/en_core_web_sm/en_core_web_sm-any-py3-none-any.whl"
  |}.

Definition mixed_components : list value :=
  [VStr "parser"; VStr "textcat"; VNone; VStr "ner"; VStr "textcat";
   VStr "tagger"].

End MoreSamples.

(** * Properties *)

(** ** Dictionaries *)

Lemma mem_get (k : string) (d : dict) :
  Dict.mem k d = match Dict.get k d with Some _ => true | None => false end.
Proof.
  induction d as [|[k' v] d IH]; [done|].
  unfold Dict.mem in *. simpl. destruct (String.eqb k k'); [done|]. apply IH.
Qed.

Lemma get_set_eq (k : string) (v : value) (d : dict) :
  Dict.get k (Dict.set k v d) = Some v.
Proof.
  induction d as [|[k' v'] d IH]; simpl.
  - by rewrite String.eqb_refl.
  - destruct (String.eqb k k') eqn:E; simpl; rewrite E; [done|apply IH].
Qed.

Lemma get_set_ne (k k' : string) (v : value) (d : dict) :
  k ≠ k' → Dict.get k (Dict.set k' v d) = Dict.get k d.
Proof.
  intros Hne. induction d as [|[k'' v'] d IH]; simpl.
  - by apply String.eqb_neq in Hne as ->.
  - destruct (String.eqb k' k'') eqn:E; simpl.
    + apply String.eqb_eq in E as <-. by apply String.eqb_neq in Hne as ->.
    + by rewrite IH.
Qed.

Lemma get_Some_elem_of (k : string) (v : value) (d : dict) :
  Dict.get k d = Some v → (k, v) ∈ d.
Proof.
  induction d as [|[k' v'] d IH]; simpl; [done|].
  destruct (String.eqb_spec k k') as [->|]; intros H.
  - injection H as ->. left.
  - right. by apply IH.
Qed.

Lemma elem_of_get (k : string) (v : value) (d : dict) :
  NoDup d.*1 → (k, v) ∈ d → Dict.get k d = Some v.
Proof.
  induction d as [|[k' v'] d IH]; simpl; intros Hnd Hin.
  - by apply elem_of_nil in Hin.
  - apply NoDup_cons in Hnd as [Hk' Hnd].
    apply elem_of_cons in Hin as [Heq|Hin].
    + injection Heq as -> ->. by rewrite String.eqb_refl.
    + destruct (String.eqb_spec k k') as [->|]; [|by apply IH].
      destruct Hk'. apply list_elem_of_fmap. by exists (k', v).
Qed.

(** Two dicts with the same items, in any order, answer every lookup alike. *)
Lemma get_Permutation (k : string) (d d' : dict) :
  NoDup d.*1 → d ≡ₚ d' → Dict.get k d = Dict.get k d'.
Proof.
  intros Hnd Hp.
  assert (Hnd' : NoDup d'.*1) by (by rewrite <- Hp).
  destruct (Dict.get k d) as [v|] eqn:E.
  - symmetry. apply elem_of_get; [done|]. rewrite <- Hp.
    by apply get_Some_elem_of.
  - destruct (Dict.get k d') as [v'|] eqn:E'; [|done].
    apply get_Some_elem_of in E'. rewrite <- Hp in E'.
    apply elem_of_get in E'; [congruence|done].
Qed.

(** ** The results index *)

(** On a mapping, membership and subscript are the dict's own. *)
Ltac index_on_dict :=
  unfold _create_model_index, py_contains, py_getitem;
  rewrite ?mem_get.

(** Case analysis on the lookup of [k], the monad steps run afterwards. *)
Ltac case_get d k :=
  destruct (Dict.get k d) eqn:?;
  cbn [mbind result_bind mret result_ret implb andb negb succeeds] in *;
  try discriminate.

(** The index reads the mapping through its lookups only, and of [dep_las]
    nothing but its presence. *)
Lemma _create_model_index_ext (repo_name : string) (d1 d2 : dict) :
  (∀ k, k ≠ "dep_las" → Dict.get k d1 = Dict.get k d2) →
  Dict.mem "dep_las" d1 = Dict.mem "dep_las" d2 →
  _create_model_index repo_name (VDict d1)
  = _create_model_index repo_name (VDict d2).
Proof.
  intros Hget Hmem. unfold _create_model_index, py_contains, py_getitem.
  rewrite Hmem, !(mem_get _ d1), !(mem_get _ d2).
  by rewrite !Hget by done.
Qed.

(** What [_create_model_index] does on a mapping.  It returns exactly when
    every key a taken branch reads is there; the index then has the
    repository name and one entry per present group in the order of
    [metric_groups], the LABELED_DEPENDENCIES entry carrying the [dep_uas]
    value.  Otherwise it raises the [KeyError] of a key it read. *)
Lemma _create_model_index_spec (repo_name : string) (d : dict) :
  match _create_model_index repo_name (VDict d) with
  | Ok index =>
      groups_complete d = true
      ∧ ∃ rs,
          index = VDict [("name", VStr repo_name); ("results", VList rs)]
          ∧ task_name <$> rs = Some <$> present_tasks d
          ∧ (Dict.mem "dep_las" d = true →
             ∃ uas,
               Dict.get "dep_uas" d = Some uas
               ∧ List.filter (has_task_name "LABELED_DEPENDENCIES") rs
                 = [task_result "LABELED_DEPENDENCIES"
                      [_create_metric "Accuracy" "accuracy" uas]])
  | Raise e =>
      groups_complete d = false
      ∧ ∃ k, e = KeyError k
             ∧ (prf_complete d = true → k = "dep_uas")
  end.
Proof.
  unfold groups_complete, prf_complete, present_tasks. index_on_dict.
  unfold metric_groups; cbn [List.filter snd]. rewrite ?mem_get.
  case_get d "ents_p"; [case_get d "ents_r"; [case_get d "ents_f"|]|].
  all: case_get d "tag_acc".
  all: case_get d "sents_p"; [case_get d "sents_r"; [case_get d "sents_f"|]|].
  all: case_get d "dep_uas".
  all: case_get d "dep_las".
  all: split; [reflexivity|]; eexists; split_and!; try reflexivity;
    try discriminate.
  all: intros _; eexists; split; reflexivity.
Qed.

Lemma _create_model_index_succeeds (repo_name : string) (d : dict) :
  succeeds (_create_model_index repo_name (VDict d)) = groups_complete d.
Proof.
  pose proof (_create_model_index_spec repo_name d) as H.
  by destruct (_create_model_index repo_name (VDict d)) as [index|e];
    destruct H as [-> _].
Qed.

(** With complete groups the index is built, and its entries are the
    present groups in the order of [metric_groups]. *)
Lemma _create_model_index_complete (repo_name : string) (d : dict) :
  groups_complete d = true →
  ∃ rs, _create_model_index repo_name (VDict d)
        = Ok (VDict [("name", VStr repo_name); ("results", VList rs)])
        ∧ task_name <$> rs = Some <$> present_tasks d.
Proof.
  intros Hc. pose proof (_create_model_index_spec repo_name d) as H.
  destruct (_create_model_index repo_name (VDict d)) as [index|e].
  - destruct H as (_ & rs & -> & Hnames & _). by exists rs.
  - destruct H as [H _]. congruence.
Qed.

(** A permuted mapping gives the same index. *)
Lemma _create_model_index_Permutation (repo_name : string) (d d' : dict) :
  NoDup d.*1 → d ≡ₚ d' →
  _create_model_index repo_name (VDict d')
  = _create_model_index repo_name (VDict d).
Proof.
  intros Hnd Hp. apply _create_model_index_ext.
  - intros k _. symmetry. by apply get_Permutation.
  - rewrite !mem_get. by rewrite (get_Permutation _ d d').
Qed.

(** ** The tags loop *)

Lemma first_index_lt {A : Type} (p : A → bool) (l : list A) (i : nat) :
  first_index p l = Some i → i < length l.
Proof.
  revert i. induction l as [|x l IH]; intros i; cbn [first_index length].
  - discriminate.
  - destruct (p x).
    + intros [= <-]. lia.
    + destruct (first_index p l) as [j|]; [|discriminate].
      intros [= <-]. specialize (IH j eq_refl). lia.
Qed.

Lemma first_index_snoc {A : Type} (p : A → bool) (l : list A) (x : A) :
  first_index p (l ++ [x])
  = match first_index p l with
    | Some i => Some i
    | None => if p x then Some (length l) else None
    end.
Proof.
  induction l as [|y l IH]; cbn [first_index app length].
  - by destruct (p x).
  - destruct (p y); [done|]. rewrite IH.
    destruct (first_index p l); [done|]. by destruct (p x).
Qed.

Lemma first_index_Some_existsb {A : Type} (p : A → bool) (l : list A) :
  existsb p l = true → ∃ i, first_index p l = Some i.
Proof.
  induction l as [|x l IH]; cbn [existsb first_index]; [discriminate|].
  destruct (p x); [by eexists|]. intros H.
  destruct (IH H) as [i ->]. by eexists.
Qed.

(** No component name is in both fixed sets. *)
Lemma token_text_disjoint (c : value) :
  is_token_component c = true → is_text_component c = false.
Proof.
  destruct c as [| | | |s| |]; try discriminate.
  unfold is_token_component, is_text_component, value_in,
    token_classification_components, text_classification_components.
  cbn [existsb value_eqb_str]. rewrite !orb_true_iff.
  intros [H|[H|[H|H]]]; try discriminate;
    apply String.eqb_eq in H as ->; reflexivity.
Qed.

Lemma tags_step_first_match (cs : list value) (c : value) :
  tags_step (first_match_tags cs) c = first_match_tags (cs ++ [c]).
Proof.
  unfold tags_step, first_match_tags. rewrite !first_index_snoc.
  fold (is_token_component c) (is_text_component c).
  pose proof (token_text_disjoint c) as Hdis.
  destruct (first_index is_token_component cs) as [i|] eqn:Ei;
    destruct (first_index is_text_component cs) as [j|] eqn:Ej;
    try apply first_index_lt in Ei; try apply first_index_lt in Ej;
    destruct (is_token_component c); try (rewrite Hdis by done);
    try destruct (is_text_component c);
    repeat match goal with
           | |- context [?a <? ?b] => destruct (Nat.ltb_spec a b); try lia
           end;
    reflexivity.
Qed.

(** The loop computes the tags the specification describes. *)
Lemma component_tags_first_match (cs : list value) :
  component_tags cs = first_match_tags cs.
Proof.
  induction cs as [|c cs IH] using rev_ind; [done|].
  unfold component_tags in *. rewrite fold_left_app. cbn [fold_left].
  rewrite IH. apply tags_step_first_match.
Qed.

Lemma component_tags_cons (cs : list value) :
  ∃ l, component_tags cs = "spacy" :: l.
Proof. rewrite component_tags_first_match. by eexists. Qed.

(** ** The card of a well-formed manifest *)

Lemma str_replace_empty (old new : ascii) (s : string) :
  String.eqb (str_replace old new s) "" = String.eqb s "".
Proof. by destruct s. Qed.

Lemma card_metadata_well_formed (repo_name : string) (data : dict) :
  well_formed data = true →
  ∃ lang cs perf rs,
    Dict.get "lang" data = Some (VStr lang)
    ∧ Dict.get "components" data = Some (VList cs)
    ∧ Dict.get "performance" data = Some (VDict perf)
    ∧ _create_model_index repo_name (VDict perf)
      = Ok (VDict [("name", VStr repo_name); ("results", VList rs)])
    ∧ task_name <$> rs = Some <$> present_tasks perf
    ∧ card_metadata repo_name (VDict data)
      = Ok ([("tags", VList (VStr <$> component_tags cs));
             ("language", VList [VStr (language_of lang)])]
            ++ license_entry data
            ++ [("model-index",
                 VDict [("name", VStr repo_name); ("results", VList rs)])]).
Proof.
  unfold well_formed. intros H.
  destruct (Dict.get "lang" data) as [[| | | |lang| |]|] eqn:El;
    try discriminate.
  destruct (Dict.get "components" data) as [[| | | | |cs|]|] eqn:Ec;
    try (by rewrite ?andb_false_r in H).
  destruct (Dict.get "performance" data) as [[| | | | | |perf]|] eqn:Ep;
    try (by rewrite ?andb_false_r in H).
  assert (Hlic : Dict.get "license" data = None
                 ∨ ∃ s, Dict.get "license" data = Some (VStr s)).
  { destruct (Dict.get "license" data) as [[| | | |s| |]|];
      try discriminate; eauto. }
  assert (Hperf : groups_complete perf = true).
  { by destruct (Dict.get "license" data) as [[| | | |s| |]|]. }
  clear H.
  destruct (_create_model_index_complete repo_name perf Hperf)
    as (rs & Hidx & Hnames).
  destruct (component_tags_cons cs) as [l Hl].
  exists lang, cs, perf, rs. repeat split; try done.
  unfold card_metadata, py_getitem, py_get, license_entry.
  rewrite El, Ec, Ep. fold (py_getitem (VDict perf)).
  cbn [mbind result_bind mret result_ret value_eqb_str py_iter].
  rewrite Hl. unfold language_of.
  destruct (String.eqb lang "xx");
    cbn [negb mbind result_bind mret result_ret].
  all: destruct Hlic as [->|[s ->]];
    cbn [mbind result_bind mret result_ret py_replace];
    rewrite Hidx; unfold _insert_value; cbn [is_none orb value_eqb_str];
    rewrite ?str_replace_empty; try destruct (String.eqb s "");
    reflexivity.
Qed.

(** A computation fails as soon as every continuation does. *)
Lemma bind_fails {A B : Type} (m : result A) (f : A → result B) :
  (∀ a, m = Ok a → succeeds (f a) = false) → succeeds (m ≫= f) = false.
Proof. destruct m as [a|e]; [|done]. intros H. by apply H. Qed.

Lemma str_replace_length (old new : ascii) (s : string) :
  String.length (str_replace old new s) = String.length s.
Proof. induction s as [|c s IH]; cbn [str_replace String.length]; congruence. Qed.

Lemma str_replace_get (old new : ascii) (s : string) (i : nat) :
  String.get i (str_replace old new s)
  = (λ c, if Ascii.eqb c old then new else c) <$> String.get i s.
Proof.
  revert i. induction s as [|c s IH]; intros i; [done|].
  cbn [str_replace String.get]. destruct i as [|i]; [done|]. apply IH.
Qed.

Lemma bind_Ok {A B : Type} (m : result A) (f : A → result B) (b : B) :
  m ≫= f = Ok b → ∃ a, m = Ok a ∧ f a = Ok b.
Proof. destruct m as [a|e]; [|done]. intros H. by exists a. Qed.

(** Whatever it is given, the index that is returned holds the repository
    name and a list of results. *)
Lemma _create_model_index_shape (repo_name : string) (v index : value) :
  _create_model_index repo_name v = Ok index →
  ∃ rs, index = VDict [("name", VStr repo_name); ("results", VList rs)].
Proof.
  unfold _create_model_index. intros H.
  repeat (apply bind_Ok in H as (? & _ & H)).
  injection H as <-. by eexists.
Qed.

Lemma insert_language_outcome (tags v : value) :
  _insert_values_as_list [("tags", tags)] "language" v = Raise TypeError
  ∨ _insert_values_as_list [("tags", tags)] "language" v = Ok [("tags", tags)]
    ∧ is_str v = false
  ∨ ∃ y, _insert_values_as_list [("tags", tags)] "language" v
         = Ok [("tags", tags); ("language", y)]
         ∧ is_placeholder y = false
         ∧ ∀ s, v = VStr s → y = VList [VStr s].
Proof.
  destruct v as [| | | |s|[|x l]|[|p d]]; eauto;
    right; right; eexists; (split; [reflexivity|]); split; try done.
  by intros s' [= <-].
Qed.

(** What a card that was built was built from. *)
Lemma card_metadata_Ok_inv (repo_name : string) (data : value) (md : dict) :
  card_metadata repo_name data = Ok md →
  ∃ d c items perf rs language,
    data = VDict d
    ∧ Dict.get "lang" d = Some c
    ∧ Dict.get "performance" d = Some perf
    ∧ _create_model_index repo_name perf
      = Ok (VDict [("name", VStr repo_name); ("results", VList rs)])
    ∧ _insert_values_as_list
        [("tags", VList (VStr <$> component_tags items))] "language"
        (lang_value c)
      = Ok ([("tags", VList (VStr <$> component_tags items))] ++ language)
    ∧ md = [("tags", VList (VStr <$> component_tags items))] ++ language
           ++ license_entry d
           ++ [("model-index",
                VDict [("name", VStr repo_name); ("results", VList rs)])].
Proof.
  destruct data as [| | | | | |d]; try discriminate.
  unfold card_metadata, py_getitem, py_get.
  destruct (Dict.get "lang" d) as [c|] eqn:El; [|discriminate].
  cbn [mbind result_bind mret result_ret].
  assert (Hlang : (if negb (value_eqb_str c "xx") then Ok c
                   else mret (VStr "multilingual")) = Ok (lang_value c)).
  { unfold lang_value. by destruct (value_eqb_str c "xx"). }
  rewrite Hlang. cbn [mbind result_bind mret result_ret].
  assert (Hlic : (∃ e, match Dict.get "license" d with
                       | Some x => Ok x | None => Ok (VStr "") end
                       ≫= (λ l, py_replace l " " "-") = Raise e)
                 ∨ ∃ s, match Dict.get "license" d with
                        | Some x => Ok x | None => Ok (VStr "") end = Ok (VStr s)
                        ∧ license_entry d
                          = if String.eqb s "" then []
                            else [("license", VStr (str_replace " " "-" s))]).
  { unfold license_entry.
    destruct (Dict.get "license" d) as [[| | | |s| |]|];
      try (left; by eexists); right; by eexists. }
  destruct Hlic as [[e He]|(s & Hl & Hentry)].
  { intros H. apply bind_Ok in H as (l & Hl & H).
    apply bind_Ok in H as (lic & Hlic & _).
    rewrite Hl in He. cbn [mbind result_bind] in He. congruence. }
  rewrite Hl. cbn [py_replace mbind result_bind].
  destruct (Dict.get "components" d) as [cv|] eqn:Ec; [|discriminate].
  cbn [mbind result_bind].
  destruct (py_iter cv) as [items|] eqn:Hiter; [|discriminate].
  cbn [mbind result_bind].
  destruct (component_tags_cons items) as [ts Hts].
  set (tags := VList (VStr <$> component_tags items)).
  assert (Htags : _insert_values_as_list [] "tags" tags = Ok [("tags", tags)]).
  { unfold tags. by rewrite Hts. }
  rewrite Htags. cbn [mbind result_bind].
  destruct (insert_language_outcome tags (lang_value c))
    as [E|[[E _]|(y & E & _)]]; rewrite E; cbn [mbind result_bind];
    [discriminate|..].
  all: destruct (Dict.get "performance" d) as [perf|] eqn:Ep;
    [|cbn [mbind result_bind]; by intros ?].
  all: unfold _insert_value;
    cbn [is_none orb value_eqb_str mbind result_bind];
    rewrite str_replace_empty.
  all: destruct (_create_model_index repo_name perf) as [index|] eqn:Ei;
    [|cbn [mbind result_bind]; by intros ?].
  all: destruct (_create_model_index_shape _ _ _ Ei) as [rs ->].
  all: cbn [mbind result_bind mret result_ret].
  - intros [= <-]. exists d, c, items, perf, rs, [].
    split_and!; try done. rewrite Hentry. by destruct (String.eqb s "").
  - intros [= <-]. exists d, c, items, perf, rs, [("language", y)].
    split_and!; try done. rewrite Hentry. by destruct (String.eqb s "").
Qed.

Lemma value_in_is_one_of (names : list string) (c : value) :
  value_in c names = is_one_of names c.
Proof.
  unfold value_in. destruct c; cbn [is_one_of value_eqb_str]; try done;
    by induction names.
Qed.

Lemma first_index_ext {A : Type} (p q : A → bool) (l : list A) :
  (∀ x, p x = q x) → first_index p l = first_index q l.
Proof.
  intros H. induction l as [|x l IH]; [done|].
  cbn [first_index]. by rewrite H, IH.
Qed.

(** ** The description document *)

Lemma append_inj_l (s a b : string) : s +:+ a = s +:+ b → a = b.
Proof. induction s as [|c s IH]; cbn [String.append]; [done|]. intros [= H]. auto. Qed.

Lemma meta_path_ne_readme_path (repo_dir : string) :
  os_path_join repo_dir "meta.json" ≠ os_path_join repo_dir "README.md".
Proof.
  unfold os_path_join. destruct (String.eqb repo_dir "" || ends_with_sep repo_dir);
    intros H; repeat apply append_inj_l in H; discriminate.
Qed.

Lemma append_cons (x : ascii) (a b : string) :
  String x a +:+ b = String x (a +:+ b).
Proof. reflexivity. Qed.

Lemma append_assoc (a b c : string) : (a +:+ b) +:+ c = a +:+ (b +:+ c).
Proof. induction a as [|x a IH]; [done|]. by rewrite !append_cons, IH. Qed.

Lemma universal_newlines_no_CR (s : string) :
  has_char CR s = false → universal_newlines s = s.
Proof.
  induction s as [|c s IH]; [done|]. cbn [has_char universal_newlines].
  intros [-> Hs]%orb_false_iff. by rewrite IH.
Qed.

Lemma universal_newlines_app (a b : string) :
  has_char CR a = false →
  universal_newlines (a +:+ b) = a +:+ universal_newlines b.
Proof.
  induction a as [|c a IH]; [done|]. cbn [has_char].
  intros [Hc Ha]%orb_false_iff. rewrite !append_cons.
  cbn [universal_newlines]. by rewrite Hc, IH.
Qed.

Lemma universal_newlines_has_no_CR (s : string) :
  has_char CR (universal_newlines s) = false.
Proof.
  assert (H : ∀ n s, String.length s < n →
                     has_char CR (universal_newlines s) = false).
  { clear s. induction n as [|n IH]; intros s Hn; [lia|].
    destruct s as [|c s]; [done|]. cbn [universal_newlines].
    cbn [String.length] in Hn.
    destruct (Ascii.eqb c CR) eqn:Hc.
    - destruct s as [|c' s]; [done|]. cbn [String.length] in Hn.
      destruct (Ascii.eqb c' "010"); cbn [has_char]; cbn [Ascii.eqb];
        apply IH; cbn [String.length]; lia.
    - cbn [has_char]. rewrite Hc. apply IH. lia. }
  apply (H (S (String.length s))). lia.
Qed.

Lemma universal_newlines_idemp (s : string) :
  universal_newlines (universal_newlines s) = universal_newlines s.
Proof. apply universal_newlines_no_CR, universal_newlines_has_no_CR. Qed.

Section ModelCardRun.

Variable yaml_dump : value → string.
Variable json_load : string → result value.
Variable decodes : string → bool.

(** One run: the README becomes the front-matter block followed by the text
    read from the README, and no other path changes. *)
Lemma _create_model_card_run (repo_name repo_dir f : string) (w : bool)
    (fs : filesystem) (data : value) (md : dict) :
  fs !! os_path_join repo_dir "meta.json" = Some (File f true w) →
  decodes f = true →
  json_load (universal_newlines f) = Ok data →
  card_metadata repo_name data = Ok md →
  can_rewrite decodes (os_path_join repo_dir "README.md") fs = true →
  _create_model_card yaml_dump json_load decodes repo_name repo_dir fs
  = Ok (<[os_path_join repo_dir "README.md" :=
            File (metadata_section (yaml_dump (VDict md))
                  +:+ universal_newlines
                        (prior_content (os_path_join repo_dir "README.md") fs))
              true true]>
          fs).
Proof.
  intros Hmeta Hdec Hload Hcard Hre.
  unfold _create_model_card, read_text, isfile, open_w, write, prior_content,
    can_rewrite in *.
  rewrite Hmeta, Hdec. cbn [negb mbind result_bind]. rewrite Hload.
  cbn [mbind result_bind]. rewrite Hcard. cbn [mbind result_bind mret result_ret].
  destruct (fs !! os_path_join repo_dir "README.md") as [[c r w'|]|] eqn:E;
    [|done|].
  - apply andb_prop in Hre as [[-> ->]%andb_prop ->].
    cbn [negb mbind result_bind mret result_ret].
    by rewrite !lookup_insert_eq, !insert_insert_eq.
  - cbn [mbind result_bind mret result_ret].
    by rewrite !lookup_insert_eq, !insert_insert_eq.
Qed.

(** What a successful run needed. *)
Lemma _create_model_card_Ok_inv (repo_name repo_dir : string)
    (fs fs' : filesystem) :
  _create_model_card yaml_dump json_load decodes repo_name repo_dir fs = Ok fs' →
  ∃ f w data md,
    fs !! os_path_join repo_dir "meta.json" = Some (File f true w)
    ∧ decodes f = true
    ∧ json_load (universal_newlines f) = Ok data
    ∧ card_metadata repo_name data = Ok md
    ∧ can_rewrite decodes (os_path_join repo_dir "README.md") fs = true.
Proof.
  unfold _create_model_card, read_text, isfile, open_w, can_rewrite.
  destruct (fs !! os_path_join repo_dir "meta.json") as [[f [|] w|]|] eqn:Em;
    try discriminate.
  destruct (decodes f) eqn:Hdec; [|discriminate].
  cbn [negb mbind result_bind].
  destruct (json_load (universal_newlines f)) as [data|] eqn:Ej; [|discriminate].
  cbn [mbind result_bind].
  destruct (card_metadata repo_name data) as [md|] eqn:Ec; [|discriminate].
  cbn [mbind result_bind].
  destruct (fs !! os_path_join repo_dir "README.md") as [[c [|] [|]|]|] eqn:Er;
    cbn [negb andb mbind result_bind mret result_ret]; try discriminate;
    try (destruct (decodes c) eqn:Hc;
         cbn [negb andb mbind result_bind mret result_ret]);
    try discriminate; intros _; by exists f, w, data, md.
Qed.

End ModelCardRun.

(** ** The scenarios of the specification *)

Example ner_scenario :
  card_metadata "m" (VDict Samples.ner_manifest) = Ok Samples.ner_card.
Proof. reflexivity. Qed.

Example pos_scenario :
  card_metadata "m" (VDict Samples.pos_manifest)
  = Ok [("tags", VList [VStr "spacy"]);
        ("language", VList [VStr "multilingual"]);
        ("model-index",
         VDict [("name", VStr "m");
                ("results",
                 VList [task_result "POS"
                          [_create_metric "Accuracy" "accuracy"
                             (VFloat 0.95)]])])].
Proof. reflexivity. Qed.

Example labeled_only_scenario :
  _create_model_index "m" (VDict Samples.labeled_only_scores)
  = Raise (KeyError "dep_uas").
Proof. reflexivity. Qed.

Example null_license_scenario :
  card_metadata "m"
    (VDict [("lang", VStr "en"); ("license", VNone);
            ("components", VList []); ("performance", VDict [])])
  = Raise AttributeError.
Proof. reflexivity. Qed.

(** * The claims *)

(** ** Results index *)

(** C1. For a performance mapping that contains [dep_las], the index is
    produced exactly when the keys its branches read are there; the index
    that is produced has one LABELED_DEPENDENCIES entry, and the metrics of
    that entry are exactly one metric, named Accuracy of type accuracy,
    whose value is the mapping's [dep_uas] value.  The value stored under
    [dep_las] is never read: putting any other value there leaves the
    outcome as it is. *)
Theorem labeled_dependencies_reports_dep_uas (repo_name : string) (d : dict) :
  Dict.mem "dep_las" d = true →
  succeeds (_create_model_index repo_name (VDict d)) = groups_complete d
  ∧ (∀ index,
       _create_model_index repo_name (VDict d) = Ok index →
       ∃ uas rs entry,
         Dict.get "dep_uas" d = Some uas
         ∧ index_results index = Some rs
         ∧ List.filter (has_task_name "LABELED_DEPENDENCIES") rs = [entry]
         ∧ task_field "metrics" entry
           = Some (VList [VDict [("name", VStr "Accuracy");
                                 ("type", VStr "accuracy");
                                 ("value", uas)]]))
  ∧ ∀ las, _create_model_index repo_name (VDict (Dict.set "dep_las" las d))
           = _create_model_index repo_name (VDict d).
Proof.
  intros Hlas. split_and!.
  - apply _create_model_index_succeeds.
  - intros index Hidx.
    pose proof (_create_model_index_spec repo_name d) as H.
    rewrite Hidx in H. destruct H as (_ & rs & -> & _ & H).
    destruct (H Hlas) as (uas & Huas & Hentry).
    exists uas, rs. eexists. split_and!; [done|done|exact Hentry|reflexivity].
  - intros las. apply _create_model_index_ext.
    + intros k Hk. by apply get_set_ne.
    + by rewrite Hlas, mem_get, get_set_eq.
Qed.

Lemma labeled_dependencies_reports_dep_uas_witness :
  ∃ rs entry,
    _create_model_index "m" (VDict Samples.parser_scores)
    = Ok (VDict [("name", VStr "m"); ("results", VList rs)])
    ∧ List.filter (has_task_name "LABELED_DEPENDENCIES") rs = [entry]
    ∧ task_field "metrics" entry
      = Some (VList [VDict [("name", VStr "Accuracy");
                            ("type", VStr "accuracy");
                            ("value", VFloat 0.875)]]).
Proof.
  destruct (labeled_dependencies_reports_dep_uas "m" Samples.parser_scores
              eq_refl) as (_ & H & _).
  destruct (H _ eq_refl) as (uas & rs & entry & Huas & Hrs & Hentry & Hm).
  injection Huas as <-. injection Hrs as <-.
  eexists. exists entry. split_and!; [reflexivity|exact Hentry|exact Hm].
Defined.

(** C7. For every performance mapping, the index that is produced has one
    task-result entry per present metric group and none for an absent one,
    in the order NER, POS, SENTER, UNLABELED_DEPENDENCIES,
    LABELED_DEPENDENCIES; it is produced exactly when the keys the taken
    branches read are there, so always when no group is present, and the
    results are then the empty list; and a mapping with the same items in
    another key order gives the same index. *)
Theorem results_follow_metric_group_order (repo_name : string) (d : dict) :
  succeeds (_create_model_index repo_name (VDict d)) = groups_complete d
  ∧ (∀ index,
       _create_model_index repo_name (VDict d) = Ok index →
       ∃ rs,
         index = VDict [("name", VStr repo_name); ("results", VList rs)]
         ∧ task_name <$> rs = Some <$> present_tasks d)
  ∧ (present_tasks d = [] →
     _create_model_index repo_name (VDict d)
     = Ok (VDict [("name", VStr repo_name); ("results", VList [])]))
  ∧ ∀ d', NoDup d.*1 → d ≡ₚ d' →
          _create_model_index repo_name (VDict d')
          = _create_model_index repo_name (VDict d).
Proof.
  pose proof (_create_model_index_spec repo_name d) as H.
  split_and!.
  - apply _create_model_index_succeeds.
  - intros index Hidx. rewrite Hidx in H.
    destruct H as (_ & rs & -> & Hnames & _). by exists rs.
  - intros Hnone.
    assert (Hc : groups_complete d = true).
    { revert Hnone. unfold present_tasks, groups_complete, prf_complete,
        metric_groups. cbn [List.filter snd].
      by repeat (destruct (Dict.mem _ d)). }
    destruct (_create_model_index_complete repo_name d Hc)
      as (rs & -> & Hnames).
    rewrite Hnone in Hnames. by destruct rs.
  - intros d'. apply _create_model_index_Permutation.
Qed.

Lemma results_follow_metric_group_order_witness :
  succeeds (_create_model_index "m" (VDict Samples.parser_scores)) = true
  ∧ ∃ rs,
      _create_model_index "m" (VDict Samples.parser_scores)
      = Ok (VDict [("name", VStr "m"); ("results", VList rs)])
      ∧ task_name <$> rs
        = [Some "POS"; Some "UNLABELED_DEPENDENCIES";
           Some "LABELED_DEPENDENCIES"].
Proof.
  destruct (results_follow_metric_group_order "m" Samples.parser_scores)
    as (Hs & Hr & _).
  split; [exact Hs|].
  destruct (Hr _ eq_refl) as (rs & Hidx & Hnames).
  exists rs. split; [by rewrite <- Hidx|exact Hnames].
Defined.

(** C10. When the performance mapping contains [dep_las] but not [dep_uas],
    [_create_model_index] raises a [KeyError]; it is the [KeyError] of
    [dep_uas] once the precision/recall/F-score groups are complete; and no
    manifest carrying such a mapping under [performance] gets a card. *)
Theorem dep_las_without_dep_uas_raises_KeyError
    (repo_name : string) (d : dict) :
  Dict.mem "dep_las" d = true →
  Dict.mem "dep_uas" d = false →
  (∃ k, _create_model_index repo_name (VDict d) = Raise (KeyError k))
  ∧ (prf_complete d = true →
     _create_model_index repo_name (VDict d) = Raise (KeyError "dep_uas"))
  ∧ ∀ data, py_getitem data "performance" = Ok (VDict d) →
            succeeds (card_metadata repo_name data) = false.
Proof.
  intros Hlas Huas.
  pose proof (_create_model_index_spec repo_name d) as H.
  destruct (_create_model_index repo_name (VDict d)) as [index|e] eqn:E.
  { destruct H as [H _]. unfold groups_complete in H.
    rewrite Hlas, Huas, andb_false_r in H. discriminate. }
  destruct H as (_ & k & -> & Hk). split_and!.
  - by exists k.
  - intros Hprf. by rewrite (Hk Hprf).
  - intros data Hperf. unfold card_metadata.
    repeat (apply bind_fails; intros ? ?).
    congruence.
Qed.

Lemma dep_las_without_dep_uas_raises_KeyError_witness :
  (∃ k, _create_model_index "m" (VDict Samples.labeled_only_scores)
        = Raise (KeyError k))
  ∧ (prf_complete Samples.labeled_only_scores = true →
     _create_model_index "m" (VDict Samples.labeled_only_scores)
     = Raise (KeyError "dep_uas"))
  ∧ ∀ data,
      py_getitem data "performance" = Ok (VDict Samples.labeled_only_scores) →
      succeeds (card_metadata "m" data) = false.
Proof.
  apply (dep_las_without_dep_uas_raises_KeyError "m"
           Samples.labeled_only_scores); reflexivity.
Defined.

(** ** Tags *)

Lemma first_index_None_existsb {A : Type} (p : A → bool) (l : list A) :
  first_index p l = None → existsb p l = false.
Proof.
  induction l as [|x l IH]; cbn [existsb first_index]; [done|].
  destruct (p x); [done|]. destruct (first_index p l); [done|]. auto.
Qed.

Lemma first_index_Some_true {A : Type} (p : A → bool) (l : list A) (i : nat) :
  first_index p l = Some i → existsb p l = true.
Proof.
  revert i. induction l as [|x l IH]; intros i; cbn [existsb first_index];
    [done|].
  destruct (p x); [done|]. destruct (first_index p l); [|done].
  intros _. by eapply IH.
Qed.

(** C2, as the code has it. With at least one component of each class, the
    tags are the base tag followed by both class tags, each once, in the
    order of the first component of each class: [token-classification] is
    first exactly when a token-classification component comes before every
    text-classification component. *)
Theorem both_tags_once_in_first_match_order (cs : list value) :
  existsb is_token_component cs = true →
  existsb is_text_component cs = true →
  ∃ i j,
    first_index is_token_component cs = Some i
    ∧ first_index is_text_component cs = Some j
    ∧ component_tags cs
      = "spacy" :: (if i <? j
                    then ["token-classification"; "text-classification"]
                    else ["text-classification"; "token-classification"])
    ∧ count_tag "token-classification" (component_tags cs) = 1
    ∧ count_tag "text-classification" (component_tags cs) = 1.
Proof.
  intros Htok Htxt.
  destruct (first_index_Some_existsb _ _ Htok) as [i Hi].
  destruct (first_index_Some_existsb _ _ Htxt) as [j Hj].
  exists i, j. rewrite component_tags_first_match. unfold first_match_tags.
  rewrite Hi, Hj. by destruct (i <? j).
Qed.

Lemma both_tags_once_in_first_match_order_witness :
  ∃ i j,
    first_index is_token_component Samples.textcat_then_ner = Some i
    ∧ first_index is_text_component Samples.textcat_then_ner = Some j
    ∧ component_tags Samples.textcat_then_ner
      = "spacy" :: (if i <? j
                    then ["token-classification"; "text-classification"]
                    else ["text-classification"; "token-classification"])
    ∧ count_tag "token-classification"
        (component_tags Samples.textcat_then_ner) = 1
    ∧ count_tag "text-classification"
        (component_tags Samples.textcat_then_ner) = 1.
Proof.
  apply (both_tags_once_in_first_match_order Samples.textcat_then_ner);
    reflexivity.
Defined.

(** C2 as stated fails: for the components [textcat], [ner] both classes are
    there and [text-classification] is the tag that comes first. *)
Lemma token_tag_not_always_first :
  ¬ (∀ cs : list value,
       existsb is_token_component cs = true →
       existsb is_text_component cs = true →
       appears_before "token-classification" "text-classification"
         (component_tags cs) = true).
Proof.
  intros H. specialize (H Samples.textcat_then_ner eq_refl eq_refl).
  vm_compute in H. discriminate.
Qed.

(** C4. The tags start with [spacy]; one scan of the components in order
    appends [token-classification] at the first component that is one of
    [ner], [tagger], [morphologizer] and [text-classification] at the first
    component that is one of [textcat], [textcat_multilabel]; each class tag
    occurs once when its class has a component and not at all otherwise,
    the order of the two is the order of these first components, and the
    scan of a longer list continues the scan of its prefix. *)
Theorem tags_scan_appends_at_first_match (cs : list value) :
  let is_token := is_one_of ["ner"; "tagger"; "morphologizer"] in
  let is_text := is_one_of ["textcat"; "textcat_multilabel"] in
  component_tags cs
  = "spacy" ::
    match first_index is_token cs, first_index is_text cs with
    | None, None => []
    | Some _, None => ["token-classification"]
    | None, Some _ => ["text-classification"]
    | Some i, Some j =>
        if i <? j then ["token-classification"; "text-classification"]
        else ["text-classification"; "token-classification"]
    end
  ∧ head (component_tags cs) = Some "spacy"
  ∧ count_tag "spacy" (component_tags cs) = 1
  ∧ count_tag "token-classification" (component_tags cs)
    = (if existsb is_token cs then 1 else 0)
  ∧ count_tag "text-classification" (component_tags cs)
    = (if existsb is_text cs then 1 else 0)
  ∧ length (component_tags cs)
    = 1 + count_tag "token-classification" (component_tags cs)
      + count_tag "text-classification" (component_tags cs)
  ∧ ∀ c, component_tags (cs ++ [c]) = tags_step (component_tags cs) c.
Proof.
  intros is_token is_text.
  assert (Htok : ∀ c, is_token_component c = is_token c)
    by (intros c; apply value_in_is_one_of).
  assert (Htxt : ∀ c, is_text_component c = is_text c)
    by (intros c; apply value_in_is_one_of).
  pose proof (component_tags_first_match cs) as E.
  unfold first_match_tags in E.
  rewrite (first_index_ext _ _ cs Htok), (first_index_ext _ _ cs Htxt) in E.
  assert (Hscan : ∀ c, component_tags (cs ++ [c])
                       = tags_step (component_tags cs) c).
  { intros c. unfold component_tags. by rewrite fold_left_app. }
  split_and!; [done|..|done]; rewrite E.
  - done.
  - destruct (first_index is_token cs), (first_index is_text cs); try done.
    by destruct (_ <? _).
  - destruct (first_index is_token cs) as [i|] eqn:Ei.
    + rewrite (first_index_Some_true _ _ _ Ei).
      destruct (first_index is_text cs); [|done].
      by destruct (_ <? _).
    + rewrite (first_index_None_existsb _ _ Ei).
      by destruct (first_index is_text cs).
  - destruct (first_index is_text cs) as [j|] eqn:Ej.
    + rewrite (first_index_Some_true _ _ _ Ej).
      destruct (first_index is_token cs); [|done].
      by destruct (_ <? _).
    + rewrite (first_index_None_existsb _ _ Ej).
      by destruct (first_index is_token cs).
  - destruct (first_index is_token cs), (first_index is_text cs); try done.
    by destruct (_ <? _).
Qed.

Lemma tags_scan_appends_at_first_match_witness :
  component_tags
    [VStr "parser"; VStr "textcat_multilabel"; VStr "morphologizer";
     VStr "textcat"; VStr "tagger"; VStr "ner"]
  = ["spacy"; "text-classification"; "token-classification"]
  ∧ component_tags [VStr "tagger"; VStr "tagger"]
    = ["spacy"; "token-classification"]
  ∧ component_tags [VStr "ner"; VStr "textcat"]
    = ["spacy"; "token-classification"; "text-classification"]
  ∧ component_tags [VStr "parser"; VStr "senter"] = ["spacy"].
Proof.
  split_and!.
  - exact (proj1 (tags_scan_appends_at_first_match _)).
  - exact (proj1 (tags_scan_appends_at_first_match _)).
  - exact (proj1 (tags_scan_appends_at_first_match _)).
  - exact (proj1 (tags_scan_appends_at_first_match _)).
Defined.

(** ** Card fields *)

(** C5. The card of a well-formed manifest has the language field
    [["multilingual"]] when [lang] is ["xx"], and the singleton list of the
    [lang] value itself for every other language code. *)
Theorem language_field_is_singleton
    (repo_name : string) (data : dict) (lang : string) :
  well_formed data = true →
  Dict.get "lang" data = Some (VStr lang) →
  ∃ md,
    card_metadata repo_name (VDict data) = Ok md
    ∧ (lang = "xx" → card_language md = Some (VList [VStr "multilingual"]))
    ∧ (lang ≠ "xx" → card_language md = Some (VList [VStr lang])).
Proof.
  intros Hwf Hlang.
  destruct (card_metadata_well_formed repo_name data Hwf)
    as (lang' & cs & perf & rs & Hl & _ & _ & _ & _ & ->).
  assert (lang' = lang) as -> by congruence.
  eexists. split; [reflexivity|]. unfold card_language, language_of.
  split; intros H.
  - by rewrite H.
  - apply String.eqb_neq in H. by rewrite H.
Qed.

Lemma language_field_is_singleton_witness :
  ∃ md,
    card_metadata "m" (VDict Samples.pos_manifest) = Ok md
    ∧ ("xx" = "xx" → card_language md = Some (VList [VStr "multilingual"]))
    ∧ ("xx" ≠ "xx" → card_language md = Some (VList [VStr "xx"])).
Proof.
  apply (language_field_is_singleton "m" Samples.pos_manifest "xx");
    reflexivity.
Defined.

(** C6. The card of a well-formed manifest has a license field exactly when
    the manifest has a non-empty [license]; the field is then as long as the
    manifest value and has, at every position, a hyphen where the manifest
    value has a space and the same character elsewhere.  With the key absent
    or its value empty the card has no license field. *)
Theorem license_field_present_iff_nonempty (repo_name : string) (data : dict) :
  well_formed data = true →
  ∃ md,
    card_metadata repo_name (VDict data) = Ok md
    ∧ (∀ s, Dict.get "license" data = Some (VStr s) → s ≠ "" →
            ∃ t, card_license md = Some (VStr t)
                 ∧ String.length t = String.length s
                 ∧ ∀ i, String.get i t
                        = (λ c, if Ascii.eqb c " " then "-"%char else c)
                          <$> String.get i s)
    ∧ (Dict.get "license" data = None → card_license md = None)
    ∧ (Dict.get "license" data = Some (VStr "") → card_license md = None)
    ∧ (Dict.mem "license" md = true ↔
       ∃ s, Dict.get "license" data = Some (VStr s) ∧ s ≠ "").
Proof.
  intros Hwf.
  destruct (card_metadata_well_formed repo_name data Hwf)
    as (lang & cs & perf & rs & _ & _ & _ & _ & _ & ->).
  eexists. split; [reflexivity|].
  unfold card_license, license_entry. rewrite mem_get.
  assert (Hlic : Dict.get "license" data = None
                 ∨ ∃ s, Dict.get "license" data = Some (VStr s)).
  { unfold well_formed in Hwf.
    destruct (Dict.get "license" data) as [[| | | |s| |]|]; eauto;
      by rewrite ?andb_false_r in Hwf. }
  destruct Hlic as [El|[s El]]; rewrite El.
  - split_and!; try done. split; [done|]. by intros (s & ? & _).
  - destruct (String.eqb_spec s "") as [->|Hs].
    + split_and!; try done.
      * by intros s' [= <-].
      * split; [done|]. by intros (s' & [= <-] & ?).
    + split_and!; try done.
      * intros s' [= <-] _. exists (str_replace " " "-" s).
        split_and!; [done|apply str_replace_length|apply str_replace_get].
      * by intros [= ->].
      * split; [|done]. intros _. by exists s.
Qed.

Lemma license_field_present_iff_nonempty_witness :
  ∃ md,
    card_metadata "m" (VDict Samples.ner_manifest) = Ok md
    ∧ card_license md = Some (VStr "MIT-License")
    ∧ (∀ s, Dict.get "license" Samples.ner_manifest = Some (VStr s) → s ≠ "" →
            ∃ t, card_license md = Some (VStr t)
                 ∧ String.length t = String.length s
                 ∧ ∀ i, String.get i t
                        = (λ c, if Ascii.eqb c " " then "-"%char else c)
                          <$> String.get i s)
    ∧ (Dict.mem "license" md = true ↔
       ∃ s, Dict.get "license" Samples.ner_manifest = Some (VStr s) ∧ s ≠ "").
Proof.
  destruct (license_field_present_iff_nonempty "m" Samples.ner_manifest eq_refl)
    as (md & Hcard & Hlic & _ & _ & Hmem).
  exists md. split_and!; [exact Hcard| |exact Hlic|exact Hmem].
  injection Hcard as <-. reflexivity.
Defined.

(** C3, as the code has it. Every well-formed manifest gets a card, and
    in every card that is built no key but [model-index] holds a null, an
    empty string or an empty list: [tags] is there as a list that starts
    with [spacy]; [language] is the one-element list of the language when
    [lang] is a string and is left out when [lang] is null or an empty list;
    [license] is left out exactly when the manifest has none or an empty
    one.  The [model-index] field is always there, with the repository name
    and a results list, and that list is the empty list when the performance
    mapping has no metric group. *)
Theorem placeholders_omitted_outside_model_index
    (repo_name : string) (data : value) :
  (∀ d, data = VDict d → well_formed d = true →
        succeeds (card_metadata repo_name data) = true)
  ∧ ∀ md,
      card_metadata repo_name data = Ok md →
      (∀ k v, k ≠ "model-index" → Dict.get k md = Some v →
              is_placeholder v = false)
      ∧ (∃ ts, card_tags md = Some (VList (VStr "spacy" :: ts)))
      ∧ (∀ s, py_getitem data "lang" = Ok (VStr s) →
              card_language md
              = Some (VList [VStr (if String.eqb s "xx" then "multilingual"
                                   else s)]))
      ∧ (∀ c, py_getitem data "lang" = Ok c → c = VNone ∨ c = VList [] →
              card_language md = None)
      ∧ (card_license md = None
         ↔ py_get data "license" (VStr "") = Ok (VStr ""))
      ∧ ∃ rs,
          card_model_index md
          = Some (VDict [("name", VStr repo_name); ("results", VList rs)])
          ∧ ∀ perf, py_getitem data "performance" = Ok (VDict perf) →
                    present_tasks perf = [] → rs = [].
Proof.
  split.
  { intros d -> Hwf.
    destruct (card_metadata_well_formed repo_name d Hwf)
      as (lang & cs & perf & rs & _ & _ & _ & _ & _ & ->). done. }
  intros md Hmd.
  destruct (card_metadata_Ok_inv repo_name data md Hmd)
    as (d & c & items & perf & rs & language & -> & El & Ep & Hidx & Hlang & ->).
  destruct (component_tags_cons items) as [ts Hts]. rewrite Hts in *.
  set (tags := VList (VStr <$> "spacy" :: ts)) in *.
  assert (Hcases :
            language = [] ∧ is_str (lang_value c) = false
            ∨ ∃ y, language = [("language", y)] ∧ is_placeholder y = false
                   ∧ ∀ s, lang_value c = VStr s → y = VList [VStr s]).
  { destruct (insert_language_outcome tags (lang_value c))
      as [E|[[E Hs]|(y & E & Hy)]]; rewrite E in Hlang; [done|..].
    - left. injection Hlang as Hlang. by destruct language.
    - right. injection Hlang as <-. by exists y. }
  assert (Hlic : license_entry d = []
                 ∧ py_get (VDict d) "license" (VStr "") = Ok (VStr "")
                 ∨ ∃ t, license_entry d = [("license", VStr t)]
                        ∧ String.eqb t "" = false
                        ∧ py_get (VDict d) "license" (VStr "") ≠ Ok (VStr "")).
  { revert Hmd. unfold card_metadata, py_getitem, py_get, license_entry.
    rewrite El. cbn [mbind result_bind mret result_ret].
    destruct (negb _); cbn [mbind result_bind mret result_ret];
      destruct (Dict.get "license" d) as [[| | | |s| |]|];
      try (by intros ?); try (by left); intros _;
      destruct (String.eqb_spec s "") as [->|Hs]; try (by left);
      right; exists (str_replace " " "-" s); rewrite str_replace_empty;
      (split_and!; [done|by apply String.eqb_neq|congruence]). }
  split_and!.
  - intros k v Hk.
    subst tags.
    destruct Hcases as [[-> _]|(y & -> & Hy & _)],
      Hlic as [[-> _]|(t & -> & Ht & _)]; cbn [app Dict.get];
      repeat match goal with
             | |- context [String.eqb k ?x] =>
                 destruct (String.eqb_spec k x) as [->|?];
                 [try done; by intros [= <-]|]
             end; done.
  - exists (VStr <$> ts). done.
  - intros s [= Hs]. rewrite El in Hs. injection Hs as ->.
    unfold lang_value in Hcases. cbn [value_eqb_str] in Hcases.
    destruct Hcases as [[_ Hstr]|(y & -> & _ & Hy)].
    + by destruct (String.eqb s "xx").
    + unfold card_language. cbn [app Dict.get String.eqb Ascii.eqb Bool.eqb].
      destruct (String.eqb s "xx"); by rewrite (Hy _ eq_refl).
  - intros c' [= Hc'] Hnone. rewrite El in Hc'. injection Hc' as ->.
    destruct Hcases as [[-> _]|(y & -> & Hy & _)].
    + unfold card_language.
      destruct Hlic as [[-> _]|(t & -> & _)]; done.
    + exfalso. revert Hlang. unfold lang_value.
      destruct Hnone as [-> | ->]; done.
  - unfold card_license.
    destruct Hcases as [[-> _]|(y & -> & _)],
      Hlic as [[-> Hg]|(t & -> & _ & Hg)]; cbn [app Dict.get];
      split; try done; intros H; by destruct Hg.
  - exists rs. split.
    + unfold card_model_index.
      destruct Hcases as [[-> _]|(y & -> & _)],
        Hlic as [[-> _]|(t & -> & _)]; done.
    + intros perf' [= Hp'] Hnone. rewrite Ep in Hp'. injection Hp' as ->.
      pose proof (_create_model_index_spec repo_name perf') as H.
      rewrite Hidx in H. destruct H as (_ & rs' & [= <-] & Hnames & _).
      rewrite Hnone in Hnames. by destruct rs.
Qed.

Lemma placeholders_omitted_outside_model_index_witness :
  ∃ md,
    card_metadata "m" (VDict Samples.bare_manifest) = Ok md
    ∧ (∃ ts, card_tags md = Some (VList (VStr "spacy" :: ts)))
    ∧ card_language md = Some (VList [VStr "en"])
    ∧ card_license md = None
    ∧ card_model_index md
      = Some (VDict [("name", VStr "m"); ("results", VList [])]).
Proof.
  destruct (card_metadata "m" (VDict Samples.bare_manifest)) as [md|e] eqn:E;
    [|discriminate].
  destruct (placeholders_omitted_outside_model_index "m"
              (VDict Samples.bare_manifest)) as [_ H].
  destruct (H md E) as (_ & Htags & Hlang & _ & Hlic & rs & Hidx & Hrs).
  exists md. split_and!; [reflexivity|exact Htags| | |].
  - exact (Hlang "en" eq_refl).
  - by apply Hlic.
  - by rewrite Hidx, (Hrs [] eq_refl eq_refl).
Defined.

(** C3 as stated fails: a well-formed manifest whose performance mapping is
    empty gets a card whose model index carries the empty list under
    [results]. *)
Lemma empty_results_are_emitted :
  ¬ (∀ (repo_name : string) (data md : dict),
       well_formed data = true →
       card_metadata repo_name (VDict data) = Ok md →
       ∀ index v,
         card_model_index md = Some (VDict index) →
         Dict.get "results" index = Some v →
         is_placeholder v = false).
Proof.
  intros H.
  specialize (H "m" Samples.bare_manifest _ eq_refl eq_refl _ _ eq_refl eq_refl).
  discriminate.
Qed.

(** ** Missing keys *)

(** The step that reads a missing key is never passed. *)
Ltac missing_key :=
  unfold card_metadata; repeat (apply bind_fails; intros ? ?);
  unfold py_getitem in *;
  repeat match goal with
         | E : Dict.get ?k ?d = _, H : context [Dict.get ?k ?d] |- _ =>
             rewrite E in H
         end;
  congruence.

(** C8, as the code has it. A manifest that lacks [lang], [components] or
    [performance] gets no card: the run ends in an exception.  Without
    [lang] it is always the [KeyError] of [lang]; otherwise it is the
    [KeyError] of the first of these keys that is missing when the fields
    that are there have the shape of the data model.  A well-formed manifest
    without the [license] key gets its card. *)
Theorem missing_required_key_raises_KeyError
    (repo_name : string) (data : dict) :
  (has_required_keys data = false →
   ∃ k, first_missing data = Some k
        ∧ succeeds (card_metadata repo_name (VDict data)) = false
        ∧ (well_typed_fields data = true →
           card_metadata repo_name (VDict data) = Raise (KeyError k)))
  ∧ (Dict.mem "lang" data = false →
     card_metadata repo_name (VDict data) = Raise (KeyError "lang"))
  ∧ (well_formed data = true → Dict.mem "license" data = false →
     succeeds (card_metadata repo_name (VDict data)) = true).
Proof.
  split_and!.
  - unfold has_required_keys, first_missing, well_typed_fields.
    rewrite !mem_get.
    destruct (Dict.get "lang" data) as [c|] eqn:El; cbn [negb andb].
    2:{ intros _. exists "lang". split_and!; [done|missing_key|].
        intros _. unfold card_metadata, py_getitem. by rewrite El. }
    destruct (Dict.get "components" data) as [cs|] eqn:Ec; cbn [negb andb].
    2:{ intros _. exists "components". split_and!; [done|missing_key|].
        unfold card_metadata, py_getitem, py_get. rewrite El, Ec.
        destruct c as [| | | |lang| |]; try done.
        cbn [mbind result_bind mret result_ret value_eqb_str].
        destruct (Dict.get "license" data) as [[| | | |s| |]|]; try done;
          by destruct (String.eqb lang "xx"). }
    destruct (Dict.get "performance" data) as [perf|] eqn:Ep; [done|].
    intros _. exists "performance". split_and!; [done|missing_key|].
    unfold card_metadata, py_getitem, py_get. rewrite El, Ec, Ep.
    destruct c as [| | | |lang| |]; try done.
    destruct cs as [| | | | |cs|]; try (by rewrite ?andb_false_r).
    destruct (component_tags_cons cs) as [l Hl].
    cbn [mbind result_bind mret result_ret value_eqb_str py_iter].
    rewrite Hl.
    destruct (Dict.get "license" data) as [[| | | |s| |]|]; try done;
      by destruct (String.eqb lang "xx").
  - rewrite mem_get. unfold card_metadata, py_getitem.
    by destruct (Dict.get "lang" data).
  - intros Hwf _.
    destruct (card_metadata_well_formed repo_name data Hwf)
      as (lang & cs & perf & rs & _ & _ & _ & _ & _ & ->).
    done.
Qed.

Lemma missing_required_key_raises_KeyError_witness :
  (∃ k, first_missing Samples.no_components_manifest = Some k
        ∧ succeeds (card_metadata "m" (VDict Samples.no_components_manifest))
          = false
        ∧ (well_typed_fields Samples.no_components_manifest = true →
           card_metadata "m" (VDict Samples.no_components_manifest)
           = Raise (KeyError k)))
  ∧ card_metadata "m" (VDict [("components", VList [])])
    = Raise (KeyError "lang")
  ∧ succeeds (card_metadata "m" (VDict Samples.pos_manifest)) = true.
Proof.
  split_and!.
  - apply (missing_required_key_raises_KeyError "m"
             Samples.no_components_manifest). reflexivity.
  - apply (missing_required_key_raises_KeyError "m" [("components", VList [])]).
    reflexivity.
  - apply (missing_required_key_raises_KeyError "m" Samples.pos_manifest);
      reflexivity.
Defined.

(** C8 as stated fails: a manifest with [lang] and a null [license] lacks
    [components] and [performance], and the run ends in [AttributeError]. *)
Lemma missing_key_is_not_always_KeyError :
  ¬ (∀ (repo_name : string) (data : dict),
       has_required_keys data = false →
       ∃ k, card_metadata repo_name (VDict data) = Raise (KeyError k)).
Proof.
  intros H.
  destruct (H "m" [("lang", VStr "en"); ("license", VNone)] eq_refl)
    as [k Hk].
  discriminate.
Qed.

(** ** The rewritten document *)

(** C9, as the code has it. When the README can be read and rewritten
    (there is none yet, counting as empty, or it is a file the process may
    read and write and whose bytes decode), after a run it holds the opening
    marker line, the dumped card, the closing marker line and then the prior
    content as text mode reads it, every CR LF and lone CR turned into a
    line feed, so unchanged when it holds no carriage return; no other file
    changes; and when the block holds no carriage return and the new README
    decodes, a second run on the same manifest puts a second block in front
    of the first. *)
Theorem readme_gets_front_matter_prepended
    (yaml_dump : value → string) (json_load : string → result value)
    (decodes : string → bool)
    (repo_name repo_dir f : string) (w : bool) (fs : filesystem)
    (data : value) (md : dict) :
  let readme_path := os_path_join repo_dir "README.md" in
  let block := "---" +:+ LF +:+ yaml_dump (VDict md) +:+ "---" +:+ LF in
  let prior := prior_content readme_path fs in
  let run := _create_model_card yaml_dump json_load decodes repo_name repo_dir in
  fs !! os_path_join repo_dir "meta.json" = Some (File f true w) →
  decodes f = true →
  json_load (universal_newlines f) = Ok data →
  card_metadata repo_name data = Ok md →
  can_rewrite decodes readme_path fs = true →
  ∃ fs1,
    run fs = Ok fs1
    ∧ fs1 !! readme_path
      = Some (File (block +:+ universal_newlines prior) true true)
    ∧ (has_char CR prior = false →
       fs1 !! readme_path = Some (File (block +:+ prior) true true))
    ∧ (∀ p, p ≠ readme_path → fs1 !! p = fs !! p)
    ∧ (has_char CR block = false →
       decodes (block +:+ universal_newlines prior) = true →
       ∃ fs2,
         run fs1 = Ok fs2
         ∧ fs2 !! readme_path
           = Some (File (block +:+ block +:+ universal_newlines prior)
                     true true)).
Proof.
  intros readme_path block prior run Hmeta Hdec Hload Hcard Hre.
  pose proof (meta_path_ne_readme_path repo_dir) as Hne.
  pose proof (_create_model_card_run yaml_dump json_load decodes repo_name
                repo_dir f w fs data md Hmeta Hdec Hload Hcard Hre) as Hrun.
  fold readme_path in Hne, Hrun. fold prior in Hrun.
  change (metadata_section (yaml_dump (VDict md))) with block in Hrun.
  set (text := block +:+ universal_newlines prior) in *.
  set (fs1 := <[readme_path := File text true true]> fs) in *.
  assert (Hfs1 : fs1 !! readme_path = Some (File text true true))
    by apply lookup_insert_eq.
  exists fs1. split_and!; [done|done| | |].
  - intros Hcr. rewrite Hfs1. unfold text.
    by rewrite universal_newlines_no_CR.
  - intros p Hp. unfold fs1. by rewrite lookup_insert_ne.
  - intros Hblock Hdec1.
    assert (Hmeta1 : fs1 !! os_path_join repo_dir "meta.json"
                     = Some (File f true w)).
    { unfold fs1. by rewrite lookup_insert_ne. }
    assert (Hre1 : can_rewrite decodes (os_path_join repo_dir "README.md") fs1
                   = true).
    { unfold can_rewrite. fold readme_path. by rewrite Hfs1, Hdec1. }
    pose proof (_create_model_card_run yaml_dump json_load decodes repo_name
                  repo_dir f w fs1 data md Hmeta1 Hdec Hload Hcard Hre1)
      as Hrun1.
    fold readme_path in Hrun1.
    change (metadata_section (yaml_dump (VDict md))) with block in Hrun1.
    unfold prior_content in Hrun1. rewrite Hfs1 in Hrun1. unfold text in Hrun1.
    rewrite universal_newlines_app, universal_newlines_idemp in Hrun1 by done.
    eexists. split; [exact Hrun1|]. apply lookup_insert_eq.
Qed.

Lemma readme_gets_front_matter_prepended_witness :
  let run :=
    _create_model_card Samples.dump_keys Samples.load_ner_manifest
      Samples.latin1 "m" "hub/m" in
  let block :=
    "---" +:+ LF +:+ Samples.dump_keys (VDict Samples.ner_card)
    +:+ "---" +:+ LF in
  ∃ fs1 fs2,
    run Samples.crlf_files = Ok fs1
    ∧ fs1 !! "hub/m/README.md"
      = Some (File (block +:+ "a" +:+ LF +:+ "b" +:+ LF +:+ "c") true true)
    ∧ (∀ p, p ≠ "hub/m/README.md" → fs1 !! p = Samples.crlf_files !! p)
    ∧ run fs1 = Ok fs2
    ∧ fs2 !! "hub/m/README.md"
      = Some (File (block +:+ block +:+ "a" +:+ LF +:+ "b" +:+ LF +:+ "c")
                true true).
Proof.
  intros run block.
  destruct (readme_gets_front_matter_prepended Samples.dump_keys
              Samples.load_ner_manifest Samples.latin1 "m" "hub/m" "ner" false
              Samples.crlf_files (VDict Samples.ner_manifest) Samples.ner_card)
    as (fs1 & Hrun & Hreadme & _ & Hother & Htwice); try reflexivity.
  destruct Htwice as (fs2 & Hrun2 & Hreadme2); try reflexivity.
  exists fs1, fs2. split_and!; [exact Hrun|exact Hreadme|exact Hother|
                                 exact Hrun2|exact Hreadme2].
Defined.

(** C9 as stated fails: a README with carriage returns is not carried over
    unchanged. *)
Lemma carriage_returns_are_not_preserved :
  ¬ (∀ fs fs1 : filesystem,
       _create_model_card Samples.dump_keys Samples.load_ner_manifest
         Samples.latin1 "m" "hub/m" fs = Ok fs1 →
       prior_content "hub/m/README.md" fs1
       = "---" +:+ LF +:+ Samples.dump_keys (VDict Samples.ner_card)
         +:+ "---" +:+ LF +:+ prior_content "hub/m/README.md" fs).
Proof.
  intros H.
  pose proof (_create_model_card_run Samples.dump_keys
                Samples.load_ner_manifest Samples.latin1 "m" "hub/m" "ner"
                false Samples.crlf_files (VDict Samples.ner_manifest)
                Samples.ner_card eq_refl eq_refl eq_refl eq_refl eq_refl)
    as Hrun.
  apply H in Hrun. unfold prior_content in Hrun at 1.
  change (os_path_join "hub/m" "README.md") with "hub/m/README.md" in Hrun.
  rewrite lookup_insert_eq in Hrun. vm_compute in Hrun. discriminate.
Qed.

(** * Further properties *)

(** ** The results index as a table *)

(** Reading one test or value key of a mapping. *)
Ltac case_gets d :=
  case_get d "ents_p"; [case_get d "ents_r"; [case_get d "ents_f"|]|];
  (case_get d "tag_acc");
  (case_get d "sents_p"; [case_get d "sents_r"; [case_get d "sents_f"|]|]);
  (case_get d "dep_uas");
  (case_get d "dep_las").

(** X1. On a mapping, [_create_model_index] is the table-driven index: the
    same entries with the same metric names, types and values in the same
    order, and the same [KeyError] when a key is missing. *)
Theorem _create_model_index_is_table_driven (repo_name : string) (d : dict) :
  _create_model_index repo_name (VDict d) = table_index repo_name d.
Proof.
  unfold table_index, metric_table.
  cbn [table_results table_metrics py_getitem]. index_on_dict.
  case_gets d; reflexivity.
Qed.

Lemma existsb_orb {A : Type} (p q : A → bool) (l : list A) :
  existsb (λ x, p x || q x) l = existsb p l || existsb q l.
Proof.
  induction l as [|x l IH]; [done|]. cbn [existsb]. rewrite IH.
  destruct (p x), (q x), (existsb p l), (existsb q l); reflexivity.
Qed.

(** X2. The index depends on the mapping through the values of the eight
    keys it reads and the presence of [dep_las] only: every other key, and
    the value under [dep_las], is ignored. *)
Theorem _create_model_index_reads_nine_keys
    (repo_name : string) (d1 d2 : dict) :
  (∀ k, k ∈ value_keys → Dict.get k d1 = Dict.get k d2) →
  Dict.mem "dep_las" d1 = Dict.mem "dep_las" d2 →
  _create_model_index repo_name (VDict d1)
  = _create_model_index repo_name (VDict d2).
Proof.
  intros Hget Hmem. unfold _create_model_index, py_contains, py_getitem.
  rewrite Hmem, !(mem_get _ d1), !(mem_get _ d2).
  by rewrite !Hget by (unfold value_keys; set_solver).
Qed.

Lemma _create_model_index_reads_nine_keys_witness :
  _create_model_index "m" (VDict MoreSamples.full_scores)
  = _create_model_index "m"
      (VDict [("dep_las", VNone); ("dep_uas", VFloat 0.875);
              ("ents_f", VFloat 0.85); ("ents_r", VFloat 0.8);
              ("ents_p", VFloat 0.9)]).
Proof.
  apply (_create_model_index_reads_nine_keys "m" MoreSamples.full_scores).
  - intros k Hk. unfold value_keys in Hk.
    repeat (apply elem_of_cons in Hk as [->|Hk]; [reflexivity|]).
    by apply elem_of_nil in Hk.
  - reflexivity.
Defined.

(** X3. A [performance] value that is no mapping: [None], a boolean or a
    number raises [TypeError]; a list gives an index with no results unless
    one of the five tested keys is among its elements, and a string gives an
    index with no results unless one of them occurs in it, and then the
    subscript raises [TypeError]. *)
Theorem _create_model_index_of_non_mapping (repo_name : string) (v : value) :
  let empty_index :=
    Ok (VDict [("name", VStr repo_name); ("results", VList [])]) in
  match v with
  | VDict _ => True
  | VList l =>
      _create_model_index repo_name v
      = if existsb (λ x, value_in x test_keys) l then Raise TypeError
        else empty_index
  | VStr s =>
      _create_model_index repo_name v
      = if existsb (λ k, is_substring k s) test_keys then Raise TypeError
        else empty_index
  | _ => _create_model_index repo_name v = Raise TypeError
  end.
Proof.
  destruct v as [| | | |s|l|d]; try done.
  - unfold _create_model_index, py_contains, py_getitem, test_keys.
    cbn [existsb]. rewrite orb_false_r.
    by repeat (destruct (is_substring _ s)).
  - unfold _create_model_index, py_contains, py_getitem, test_keys, value_in.
    cbn [existsb].
    rewrite !existsb_orb.
    replace (existsb (λ _ : value, false) l) with false
      by (clear; induction l; [done|by cbn [existsb]]).
    rewrite orb_false_r.
    by repeat (destruct (existsb _ l)).
Qed.

(** ** The manifest keys *)

(** X4. The card depends on the manifest through [lang], [license],
    [components] and [performance] only: whatever else the manifest holds is
    ignored, and so is the order of its keys. *)
Theorem card_metadata_reads_four_keys (repo_name : string) (d1 d2 : dict) :
  (∀ k, k ∈ manifest_keys → Dict.get k d1 = Dict.get k d2) →
  card_metadata repo_name (VDict d1) = card_metadata repo_name (VDict d2).
Proof.
  intros Hget. unfold card_metadata, py_getitem, py_get.
  by rewrite !Hget by (unfold manifest_keys; set_solver).
Qed.

Lemma card_metadata_reads_four_keys_witness :
  card_metadata "m" (VDict Samples.pos_manifest)
  = card_metadata "m"
      (VDict [("name", VStr "core_web_sm");
              ("performance", VDict [("tag_acc", VFloat 0.95)]);
              ("components", VList []); ("lang", VStr "xx")]).
Proof.
  apply (card_metadata_reads_four_keys "m" Samples.pos_manifest).
  intros k Hk. unfold manifest_keys in Hk.
  repeat (apply elem_of_cons in Hk as [->|Hk]; [reflexivity|]).
  by apply elem_of_nil in Hk.
Defined.



(** ** Manifests outside the data model *)

Lemma insert_language_cases (tags v : value) :
  _insert_values_as_list [("tags", tags)] "language" v = Raise TypeError
  ∨ _insert_values_as_list [("tags", tags)] "language" v = Ok [("tags", tags)]
  ∨ ∃ y, _insert_values_as_list [("tags", tags)] "language" v
         = Ok [("tags", tags); ("language", y)].
Proof.
  destruct v as [| | | |s|[|x l]|[|p d]]; eauto.
Qed.

Lemma card_metadata_general (repo_name : string) (data : dict)
    (c cv : value) (items : list value) (perf : dict) :
  Dict.get "lang" data = Some c →
  license_ok data = true →
  Dict.get "components" data = Some cv →
  py_iter cv = Ok items →
  Dict.get "performance" data = Some (VDict perf) →
  groups_complete perf = true →
  ∃ rs,
    _create_model_index repo_name (VDict perf)
    = Ok (VDict [("name", VStr repo_name); ("results", VList rs)])
    ∧ card_metadata repo_name (VDict data)
      = (md ← _insert_values_as_list
                [("tags", VList (VStr <$> component_tags items))]
                "language" (lang_value c);
         mret (md ++ license_entry data
               ++ [("model-index",
                    VDict [("name", VStr repo_name);
                           ("results", VList rs)])])).
Proof.
  intros El Hlic Ec Hiter Ep Hperf.
  destruct (_create_model_index_complete repo_name perf Hperf)
    as (rs & Hidx & _).
  destruct (component_tags_cons items) as [l Hl].
  exists rs. split; [done|].
  unfold card_metadata, py_getitem, py_get, license_entry, license_ok in *.
  rewrite El, Ec, Ep. fold (py_getitem (VDict perf)).
  cbn [mbind result_bind mret result_ret].
  assert (Hlang : (if negb (value_eqb_str c "xx") then Ok c
                   else mret (VStr "multilingual")) = Ok (lang_value c)).
  { unfold lang_value. by destruct (value_eqb_str c "xx"). }
  rewrite Hlang. cbn [mbind result_bind mret result_ret].
  set (tags := VList (VStr <$> component_tags items)).
  assert (Htags : _insert_values_as_list [] "tags" tags = Ok [("tags", tags)]).
  { unfold tags. by rewrite Hl. }
  destruct (Dict.get "license" data) as [[| | | |s| |]|]; try discriminate;
    cbn [mbind result_bind mret result_ret py_replace];
    rewrite Hiter; cbn [mbind result_bind mret result_ret];
    fold tags; rewrite Htags; cbn [mbind result_bind mret result_ret];
    destruct (insert_language_cases tags (lang_value c)) as [->|[->|[y ->]]];
    cbn [mbind result_bind mret result_ret]; rewrite ?Hidx;
    unfold _insert_value; cbn [is_none orb value_eqb_str];
    rewrite ?str_replace_empty; try destruct (String.eqb s "");
    reflexivity.
Qed.

(** X6. What [lang] may hold besides a string, in a manifest that is
    otherwise well formed: a boolean or a number raises [TypeError]; [null],
    an empty list and an empty mapping give a card without language field;
    a non-empty list or mapping becomes the language field as it is. *)
Theorem language_field_of_any_lang (repo_name : string) (data : dict)
    (c : value) (cs : list value) (perf : dict) :
  Dict.get "lang" data = Some c →
  license_ok data = true →
  Dict.get "components" data = Some (VList cs) →
  Dict.get "performance" data = Some (VDict perf) →
  groups_complete perf = true →
  match c with
  | VBool _ | VInt _ | VFloat _ =>
      card_metadata repo_name (VDict data) = Raise TypeError
  | VNone | VList [] | VDict [] =>
      ∃ md, card_metadata repo_name (VDict data) = Ok md
            ∧ card_language md = None
  | VStr s =>
      ∃ md, card_metadata repo_name (VDict data) = Ok md
            ∧ card_language md = Some (VList [VStr (language_of s)])
  | VList _ | VDict _ =>
      ∃ md, card_metadata repo_name (VDict data) = Ok md
            ∧ card_language md = Some c
  end.
Proof.
  intros El Hlic Ec Ep Hperf.
  destruct (card_metadata_general repo_name data c (VList cs) cs perf)
    as (rs & _ & ->); try done.
  unfold card_language, license_entry, lang_value, language_of.
  destruct c as [| | | |s|[|x l]|[|p d]]; cbn [value_eqb_str];
    try destruct (String.eqb s "xx"); try reflexivity;
    (eexists; split; [reflexivity|]);
    destruct (Dict.get "license" data) as [[| | | |s'| |]|];
    try destruct (String.eqb s' ""); reflexivity.
Qed.

Lemma language_field_of_any_lang_witness :
  ∃ md, card_metadata "m" (VDict MoreSamples.null_lang_manifest) = Ok md
        ∧ card_language md = None.
Proof.
  apply (language_field_of_any_lang "m" MoreSamples.null_lang_manifest VNone
           [VStr "ner"] []); reflexivity.
Defined.

(** X7. A [license] that is there and is no string raises
    [AttributeError] as soon as [lang] is there, whatever [components] and
    [performance] hold and even when they are missing. *)
Theorem non_string_license_raises_AttributeError
    (repo_name : string) (data : dict) (c l : value) :
  Dict.get "lang" data = Some c →
  Dict.get "license" data = Some l →
  is_str l = false →
  card_metadata repo_name (VDict data) = Raise AttributeError.
Proof.
  intros El Elic Hl. unfold card_metadata, py_getitem, py_get.
  rewrite El, Elic. cbn [mbind result_bind mret result_ret].
  destruct (value_eqb_str c "xx"), l; try discriminate; reflexivity.
Qed.

Lemma non_string_license_raises_AttributeError_witness :
  card_metadata "m" (VDict MoreSamples.null_license_manifest)
  = Raise AttributeError.
Proof.
  apply (non_string_license_raises_AttributeError "m"
           MoreSamples.null_license_manifest (VStr "en") VNone); reflexivity.
Defined.

Lemma one_char_not_classified (c : ascii) :
  is_classified (VStr (String c EmptyString)) = false.
Proof.
  unfold is_classified, is_token_component, is_text_component, value_in,
    token_classification_components, text_classification_components.
  cbn [existsb value_eqb_str String.eqb].
  by repeat (destruct (Ascii.eqb c _)).
Qed.

Lemma first_index_None_Forall {A : Type} (p : A → bool) (l : list A) :
  Forall (λ x, p x = false) l → first_index p l = None.
Proof.
  induction 1 as [|x l Hx _ IH]; [done|].
  cbn [first_index]. by rewrite Hx, IH.
Qed.

Lemma component_tags_unclassified (cs : list value) :
  Forall (λ c, is_classified c = false) cs → component_tags cs = ["spacy"].
Proof.
  intros H. rewrite component_tags_first_match. unfold first_match_tags.
  rewrite !first_index_None_Forall; [done|..];
    eapply Forall_impl; try exact H; intros c Hc;
    unfold is_classified in Hc; by apply orb_false_iff in Hc as [? ?].
Qed.

Lemma component_tags_str_chars (s : string) :
  component_tags (str_chars s) = ["spacy"].
Proof.
  apply component_tags_unclassified.
  induction s as [|c s IH]; cbn [str_chars]; constructor; [|done].
  apply one_char_not_classified.
Qed.

(** X8. What [components] may hold, in a manifest that is otherwise well
    formed: a list is scanned; a string is scanned character by character
    and never yields a class tag; a mapping is scanned by its keys; [null],
    a boolean or a number raises [TypeError]. *)
Theorem tags_of_any_components (repo_name : string) (data : dict)
    (lang : string) (cv : value) (perf : dict) :
  Dict.get "lang" data = Some (VStr lang) →
  license_ok data = true →
  Dict.get "components" data = Some cv →
  Dict.get "performance" data = Some (VDict perf) →
  groups_complete perf = true →
  match cv with
  | VList cs =>
      ∃ md, card_metadata repo_name (VDict data) = Ok md
            ∧ card_tags md = Some (VList (VStr <$> component_tags cs))
  | VStr _ =>
      ∃ md, card_metadata repo_name (VDict data) = Ok md
            ∧ card_tags md = Some (VList [VStr "spacy"])
  | VDict d =>
      ∃ md, card_metadata repo_name (VDict data) = Ok md
            ∧ card_tags md
              = Some (VList (VStr <$> component_tags (VStr <$> d.*1)))
  | _ => card_metadata repo_name (VDict data) = Raise TypeError
  end.
Proof.
  intros El Hlic Ec Ep Hperf.
  assert (Hiter : ∀ items, py_iter cv = Ok items →
            ∃ md, card_metadata repo_name (VDict data) = Ok md
                  ∧ card_tags md = Some (VList (VStr <$> component_tags items))).
  { intros items Hiter.
    destruct (card_metadata_general repo_name data (VStr lang) cv items perf)
      as (rs & _ & ->); try done.
    unfold lang_value. cbn [value_eqb_str].
    destruct (String.eqb lang "xx"); by eexists. }
  destruct cv as [| | | |s|cs|d]; try (by apply Hiter).
  5:{ destruct (Hiter _ eq_refl) as (md & ? & Ht).
      rewrite component_tags_str_chars in Ht. by exists md. }
  all: unfold card_metadata, py_getitem, py_get, license_ok in *.
  all: rewrite El, Ec; cbn [mbind result_bind mret result_ret value_eqb_str].
  all: destruct (Dict.get "license" data) as [[| | | |s'| |]|]; try done.
  all: by destruct (String.eqb lang "xx").
Qed.

Lemma tags_of_any_components_witness :
  ∃ md, card_metadata "m" (VDict MoreSamples.string_components_manifest) = Ok md
        ∧ card_tags md = Some (VList [VStr "spacy"]).
Proof.
  apply (tags_of_any_components "m" MoreSamples.string_components_manifest
           "en" (VStr "ner") []); reflexivity.
Defined.

(** ** The tags loop, further *)

(** X9. The tags never repeat, are between one and three, and are taken
    from [spacy], [token-classification] and [text-classification]. *)
Theorem tags_are_distinct_known_tags (cs : list value) :
  NoDup (component_tags cs)
  ∧ 1 ≤ length (component_tags cs) ≤ 3
  ∧ ∀ t, t ∈ component_tags cs → t ∈ all_tags.
Proof.
  rewrite component_tags_first_match. unfold first_match_tags, all_tags.
  destruct (first_index is_token_component cs) as [i|],
    (first_index is_text_component cs) as [j|];
    try destruct (i <? j);
    (split_and!; [by apply (bool_decide_unpack _)|cbn [length]; lia..|]);
    intros t Ht;
    repeat (apply elem_of_cons in Ht as [->|Ht];
            [by apply (bool_decide_unpack _)|]);
    by apply elem_of_nil in Ht.
Qed.

Lemma tags_step_unclassified (tags : list string) (c : value) :
  is_classified c = false → tags_step tags c = tags.
Proof.
  unfold is_classified, is_token_component, is_text_component, tags_step.
  intros [-> ->]%orb_false_iff. reflexivity.
Qed.

(** X10. Components outside the two fixed sets never matter: dropping them
    from the list leaves the tags as they are. *)
Theorem unclassified_components_are_ignored (cs : list value) :
  component_tags (List.filter is_classified cs) = component_tags cs.
Proof.
  unfold component_tags. generalize ["spacy"].
  induction cs as [|c cs IH]; intros acc; [done|].
  cbn [List.filter fold_left].
  destruct (is_classified c) eqn:Hc; cbn [fold_left].
  - apply IH.
  - rewrite (tags_step_unclassified _ _ Hc). apply IH.
Qed.

(** ** The license string *)

Lemma str_replace_no_old (old new : ascii) (s : string) :
  old ≠ new → has_char old (str_replace old new s) = false.
Proof.
  intros Hne. induction s as [|c s IH]; cbn [str_replace has_char]; [done|].
  rewrite IH, orb_false_r. destruct (Ascii.eqb_spec c old) as [->|Hc].
  - apply Ascii.eqb_neq. congruence.
  - by apply Ascii.eqb_neq.
Qed.

Lemma str_replace_id (old new : ascii) (s : string) :
  has_char old s = false → str_replace old new s = s.
Proof.
  induction s as [|c s IH]; cbn [str_replace has_char]; [done|].
  intros [-> Hs]%orb_false_iff. by rewrite IH.
Qed.

(** X11. The license field of a card holds no space and is as long as the
    manifest's license; a license without spaces is passed through
    unchanged. *)
Theorem license_field_has_no_space (repo_name : string) (data : dict)
    (s : string) :
  well_formed data = true →
  Dict.get "license" data = Some (VStr s) →
  s ≠ "" →
  ∃ md t,
    card_metadata repo_name (VDict data) = Ok md
    ∧ card_license md = Some (VStr t)
    ∧ has_char " " t = false
    ∧ String.length t = String.length s
    ∧ (has_char " " s = false → t = s).
Proof.
  intros Hwf El Hs.
  destruct (card_metadata_well_formed repo_name data Hwf)
    as (lang & cs & perf & rs & _ & _ & _ & _ & _ & ->).
  eexists _, (str_replace " " "-" s). split_and!; [reflexivity|..].
  - unfold card_license, license_entry. rewrite El.
    apply String.eqb_neq in Hs. by rewrite Hs.
  - by apply str_replace_no_old.
  - apply str_replace_length.
  - apply str_replace_id.
Qed.

Lemma license_field_has_no_space_witness :
  ∃ md t,
    card_metadata "m" (VDict Samples.ner_manifest) = Ok md
    ∧ card_license md = Some (VStr t)
    ∧ has_char " " t = false
    ∧ String.length t = String.length "MIT License"
    ∧ (has_char " " "MIT License" = false → t = "MIT License").
Proof.
  apply (license_field_has_no_space "m" Samples.ner_manifest "MIT License");
    [reflexivity|reflexivity|discriminate].
Defined.

(** ** The two insert helpers *)

Lemma set_keys (k : string) (v : value) (d : dict) :
  (Dict.set k v d).*1 = if Dict.mem k d then d.*1 else d.*1 ++ [k].
Proof.
  induction d as [|[k' v'] d IH]; [done|].
  unfold Dict.mem in *. cbn [Dict.set fmap list_fmap fst existsb].
  destruct (String.eqb k k'); cbn [orb]; [done|].
  cbn [fmap list_fmap fst]. fold (fmap (M:=list) (@fst string value)).
  rewrite IH. by destruct (existsb _ _).
Qed.

(** X12. [_insert_value] leaves every other key as it is; the key itself
    is bound to the value, unless the value is [None] or the empty string,
    and then the dict is unchanged, an earlier binding included; a key that
    was there keeps its position and a new key goes last. *)
Theorem _insert_value_lookup (metadata : dict) (name : string) (v : value) :
  let omitted := is_none v || value_eqb_str v "" in
  let md := _insert_value metadata name v in
  (∀ k, k ≠ name → Dict.get k md = Dict.get k metadata)
  ∧ Dict.get name md = (if omitted then Dict.get name metadata else Some v)
  ∧ md.*1 = (if omitted || Dict.mem name metadata then metadata.*1
             else metadata.*1 ++ [name]).
Proof.
  intros omitted md. unfold md, _insert_value. fold omitted.
  destruct omitted; cbn [orb]; split_and!; try done.
  - intros k Hk. by apply get_set_ne.
  - apply get_set_eq.
  - apply set_keys.
Qed.

(** X13. When [_insert_values_as_list] returns, every other key is as it
    was, and either nothing changed or the key is bound to a list or mapping
    of positive length, never to a bare string: a string is stored as a
    singleton list. *)
Theorem _insert_values_as_list_stores_nonempty
    (metadata md : dict) (name : string) (v : value) :
  _insert_values_as_list metadata name v = Ok md →
  (∀ k, k ≠ name → Dict.get k md = Dict.get k metadata)
  ∧ (md = metadata
     ∨ ∃ x n, Dict.get name md = Some x
              ∧ is_str x = false ∧ py_len x = Ok (S n)
              ∧ x = (if is_str v then VList [v] else v)).
Proof.
  unfold _insert_values_as_list.
  destruct v as [| | | |s|l|d]; cbn [is_none is_str py_len mbind result_bind];
    try discriminate.
  - intros [= <-]. split; [done|]. by left.
  - cbn [length Nat.eqb]. intros [= <-]. split.
    + intros k Hk. by apply get_set_ne.
    + right. exists (VList [VStr s]), 0. by rewrite get_set_eq.
  - destruct l as [|x l]; cbn [length Nat.eqb]; intros [= <-];
      (split; [try done|]).
    + by left.
    + intros k Hk. by apply get_set_ne.
    + right. exists (VList (x :: l)), (length l). by rewrite get_set_eq.
  - destruct d as [|p d]; cbn [length Nat.eqb]; intros [= <-];
      (split; [try done|]).
    + by left.
    + intros k Hk. by apply get_set_ne.
    + right. exists (VDict (p :: d)), (length d). by rewrite get_set_eq.
Qed.

Lemma _insert_values_as_list_stores_nonempty_witness :
  let metadata := [("tags", VList [VStr "spacy"])] in
  let md := [("tags", VList [VStr "spacy"]); ("language", VList [VStr ""])] in
  (∀ k, k ≠ "language" → Dict.get k md = Dict.get k metadata)
  ∧ (md = metadata
     ∨ ∃ x n, Dict.get "language" md = Some x
              ∧ is_str x = false ∧ py_len x = Ok (S n)
              ∧ x = VList [VStr ""]).
Proof.
  intros metadata md.
  apply (_insert_values_as_list_stores_nonempty metadata md "language"
           (VStr "")).
  reflexivity.
Defined.

(** ** Repeated runs *)


(** X14. [n] runs in a row on the same manifest, with a block free of
    carriage returns and documents that decode, leave the README with [n]
    front-matter blocks in front of the text first read from it, and every
    other file as it was. *)
Theorem repeated_runs_stack_blocks
    (yaml_dump : value → string) (json_load : string → result value)
    (decodes : string → bool)
    (n : nat) (repo_name repo_dir f : string) (w : bool) (fs : filesystem)
    (data : value) (md : dict) :
  let readme_path := os_path_join repo_dir "README.md" in
  let block := "---" +:+ LF +:+ yaml_dump (VDict md) +:+ "---" +:+ LF in
  let prior := prior_content readme_path fs in
  fs !! os_path_join repo_dir "meta.json" = Some (File f true w) →
  decodes f = true →
  json_load (universal_newlines f) = Ok data →
  card_metadata repo_name data = Ok md →
  can_rewrite decodes readme_path fs = true →
  has_char CR block = false →
  (∀ k, decodes (str_repeat (S k) block +:+ universal_newlines prior) = true) →
  ∃ fs',
    create_model_card_times yaml_dump json_load decodes n repo_name repo_dir fs
    = Ok fs'
    ∧ prior_content readme_path fs'
      = match n with
        | 0 => prior
        | S _ => str_repeat n block +:+ universal_newlines prior
        end
    ∧ ∀ p, p ≠ readme_path → fs' !! p = fs !! p.
Proof.
  intros readme_path block prior Hmeta Hdec Hload Hcard Hre Hblock Hdecs.
  subst prior. revert fs Hmeta Hre Hdecs.
  induction n as [|n IH]; intros fs Hmeta Hre Hdecs.
  - exists fs. by split_and!.
  - cbn [create_model_card_times].
    rewrite (_create_model_card_run yaml_dump json_load decodes repo_name
               repo_dir f w fs data md Hmeta Hdec Hload Hcard Hre).
    cbn [mbind result_bind]. fold readme_path.
    change (metadata_section (yaml_dump (VDict md))) with block.
    set (text := block +:+ universal_newlines (prior_content readme_path fs)).
    set (fs1 := <[readme_path := File text true true]> fs).
    pose proof (meta_path_ne_readme_path repo_dir) as Hne.
    fold readme_path in Hne.
    assert (H1 : fs1 !! readme_path = Some (File text true true))
      by apply lookup_insert_eq.
    assert (Hp1 : prior_content readme_path fs1 = text).
    { unfold prior_content. by rewrite H1. }
    assert (Hu : universal_newlines text = text).
    { unfold text.
      by rewrite universal_newlines_app, universal_newlines_idemp. }
    destruct (IH fs1) as (fs' & Hrun & Hprior & Hother).
    { unfold fs1. by rewrite lookup_insert_ne. }
    { unfold can_rewrite. rewrite H1. cbn [andb]. apply (Hdecs 0). }
    { intros k. rewrite Hp1, Hu. unfold text.
      rewrite <- append_assoc. apply (Hdecs (S k)). }
    exists fs'. split_and!; [done| |].
    + rewrite Hprior, Hp1. destruct n as [|n]; [done|].
      rewrite Hu. unfold text. by rewrite <- append_assoc.
    + intros p Hp. rewrite (Hother p Hp). unfold fs1.
      by rewrite lookup_insert_ne.
Qed.

Lemma repeated_runs_stack_blocks_witness :
  let block :=
    "---" +:+ LF +:+ Samples.dump_keys (VDict Samples.ner_card)
    +:+ "---" +:+ LF in
  ∃ fs',
    create_model_card_times Samples.dump_keys Samples.load_ner_manifest
      Samples.latin1 3 "m" "hub/m" Samples.crlf_files = Ok fs'
    ∧ prior_content "hub/m/README.md" fs'
      = block +:+ block +:+ block +:+ "a" +:+ LF +:+ "b" +:+ LF +:+ "c"
    ∧ ∀ p, p ≠ "hub/m/README.md" → fs' !! p = Samples.crlf_files !! p.
Proof.
  intros block.
  apply (repeated_runs_stack_blocks Samples.dump_keys
           Samples.load_ner_manifest Samples.latin1 3 "m" "hub/m" "ner" false
           Samples.crlf_files (VDict Samples.ner_manifest) Samples.ner_card);
    reflexivity.
Defined.

(** ** The names of [push] *)

Lemma str_split_cons (sep : ascii) (s : string) :
  ∃ part parts, str_split sep s = part :: parts.
Proof.
  induction s as [|c s (part & parts & IH)]; cbn [str_split]; [by eexists _, _|].
  destruct (Ascii.eqb c sep); [by eexists _, _|]. rewrite IH. by eexists _, _.
Qed.

Lemma str_join_cons_cons (sep : ascii) (a b : string) (l : list string) :
  str_join sep (a :: b :: l) = a +:+ String sep (str_join sep (b :: l)).
Proof. done. Qed.

Lemma str_join_String (sep c : ascii) (part : string) (parts : list string) :
  str_join sep (String c part :: parts) = String c (str_join sep (part :: parts)).
Proof. by destruct parts. Qed.

Lemma str_join_split (sep : ascii) (s : string) :
  str_join sep (str_split sep s) = s.
Proof.
  induction s as [|c s IH]; [done|]. cbn [str_split].
  destruct (str_split_cons sep s) as (part & parts & E). rewrite E in *.
  destruct (Ascii.eqb_spec c sep) as [->|Hc].
  - rewrite str_join_cons_cons. change ("" +:+ ?x) with x. by rewrite IH.
  - by rewrite str_join_String, IH.
Qed.

Lemma str_split_length (sep : ascii) (s : string) :
  length (str_split sep s) = S (count_char sep s).
Proof.
  induction s as [|c s IH]; [done|]. cbn [str_split count_char].
  destruct (str_split_cons sep s) as (part & parts & E). rewrite E in *.
  destruct (Ascii.eqb c sep); cbn [length] in *; lia.
Qed.

Lemma str_split_no_sep (sep : ascii) (s : string) :
  Forall (λ part, has_char sep part = false) (str_split sep s).
Proof.
  induction s as [|c s IH]; cbn [str_split]; [by repeat constructor|].
  destruct (str_split_cons sep s) as (part & parts & E). rewrite E in *.
  destruct (Ascii.eqb c sep) eqn:Hc; [by constructor|].
  apply Forall_cons in IH as [Hp Hps]. constructor; [|done].
  cbn [has_char]. by rewrite Hc, Hp.
Qed.

Lemma str_split_join (sep : ascii) (parts : list string) :
  parts ≠ [] →
  Forall (λ part, has_char sep part = false) parts →
  str_split sep (str_join sep parts) = parts.
Proof.
  intros Hne Hall. induction Hall as [|part parts Hp Hall IH]; [done|].
  clear Hne. destruct parts as [|b parts].
  - cbn [str_join]. clear IH Hall.
    induction part as [|c part IH]; [done|]. cbn [has_char] in Hp.
    apply orb_false_iff in Hp as [Hc Hp]. cbn [str_split].
    by rewrite Hc, (IH Hp).
  - rewrite str_join_cons_cons. specialize (IH ltac:(done)).
    induction part as [|c part IHp].
    + change ("" +:+ ?x) with x. cbn [str_split].
      by rewrite Ascii.eqb_refl, IH.
    + cbn [has_char] in Hp. apply orb_false_iff in Hp as [Hc Hp].
      rewrite append_cons. cbn [str_split]. by rewrite Hc, (IHp Hp).
Qed.


Lemma has_char_append (c : ascii) (a b : string) :
  has_char c (a +:+ b) = has_char c a || has_char c b.
Proof.
  induction a as [|x a IH]; [done|].
  rewrite append_cons. cbn [has_char]. by rewrite IH, orb_assoc.
Qed.

Lemma has_char_join (c sep : ascii) (parts : list string) :
  has_char c (str_join sep parts) = false →
  Forall (λ part, has_char c part = false) parts.
Proof.
  induction parts as [|a [|b parts] IH]; [done| |].
  - intros H. by repeat constructor.
  - rewrite str_join_cons_cons, has_char_append. cbn [has_char].
    intros [Ha [_ H]%orb_false_iff]%orb_false_iff. constructor; auto.
Qed.

Lemma basename_no_slash (p : string) : has_char "/" (basename p) = false.
Proof.
  unfold basename. pose proof (str_split_no_sep "/" p) as H.
  destruct (str_split_cons "/" p) as (part & parts & E). rewrite E in *.
  clear E. revert part H. induction parts as [|b parts IH]; intros part H.
  - by apply Forall_cons in H as [? _].
  - apply Forall_cons in H as [_ H]. by apply IH.
Qed.

Lemma prefix_append (a b : string) : String.prefix a (a +:+ b) = true.
Proof.
  induction a as [|x a IH]; [by destruct b|]. rewrite append_cons.
  cbn [String.prefix]. by destruct (ascii_dec x x).
Qed.

(** X15. The names are derived exactly when the file name of the wheel has
    four hyphens; any other file name ends in the [ValueError] of the
    unpacking. *)
Theorem push_names_iff_four_hyphens (whl_path : string) :
  (∃ names, Push.push_derived_names whl_path = Unpacked names)
  ↔ count_char "-" (basename whl_path) = 4.
Proof.
  unfold Push.push_derived_names.
  pose proof (str_split_length "-" (basename whl_path)) as Hlen.
  destruct (str_split "-" (basename whl_path))
    as [|a [|b [|c [|d [|e [|g l]]]]]]; cbn [length] in Hlen;
    split; try (intros [names [=]]); try lia; intros _; by eexists.
Qed.

Lemma repo_name_no_slash (whl_path : string) (names : Push.push_names) :
  Push.push_derived_names whl_path = Unpacked names →
  has_char "/" (Push.repo_name names) = false.
Proof.
  unfold Push.push_derived_names.
  pose proof (str_join_split "-" (basename whl_path)) as Hjoin.
  pose proof (basename_no_slash whl_path) as Hslash.
  rewrite <- Hjoin in Hslash. apply has_char_join in Hslash.
  destruct (str_split "-" (basename whl_path))
    as [|r [|v [|a [|b [|c [|g l]]]]]]; try discriminate.
  intros [= <-]. by apply Forall_cons in Hslash as [? _].
Qed.

(** X16. The derived repository name and version are the first two
    hyphen-separated fields of the wheel's file name: neither holds a hyphen
    or a slash, and the file name starts with the versioned name. *)
Theorem push_names_rebuild_filename (whl_path : string) (names : Push.push_names) :
  Push.push_derived_names whl_path = Unpacked names →
  ∃ a b c,
    basename whl_path
    = str_join "-" [Push.repo_name names; Push.version names; a; b; c]
    ∧ has_char "-" (Push.repo_name names) = false
    ∧ has_char "-" (Push.version names) = false
    ∧ has_char "/" (Push.repo_name names) = false
    ∧ has_char "/" (Push.version names) = false
    ∧ String.prefix (Push.versioned_name names) (basename whl_path) = true.
Proof.
  unfold Push.push_derived_names.
  pose proof (str_join_split "-" (basename whl_path)) as Hjoin.
  pose proof (str_split_no_sep "-" (basename whl_path)) as Hsep.
  pose proof (basename_no_slash whl_path) as Hslash.
  destruct (str_split "-" (basename whl_path))
    as [|r [|v [|a [|b [|c [|g l]]]]]]; try discriminate.
  intros [= <-]. cbn [Push.repo_name Push.version Push.versioned_name].
  rewrite <- Hjoin in Hslash. apply has_char_join in Hslash.
  apply Forall_cons in Hsep as [Hr [Hv _]%Forall_cons].
  apply Forall_cons in Hslash as [Hr' [Hv' _]%Forall_cons].
  exists a, b, c. split_and!; try done.
  rewrite <- Hjoin. rewrite !str_join_cons_cons.
  match goal with
  | |- context [v +:+ ?R] =>
      replace (r +:+ String "-" (v +:+ R)) with ((r +:+ "-" +:+ v) +:+ R)
        by (by rewrite !append_assoc)
  end.
  apply prefix_append.
Qed.

Lemma push_names_rebuild_filename_witness :
  ∃ a b c,
    basename MoreSamples.wheel_path
    = str_join "-" ["en_core_web_sm"; "3.0.0"; a; b; c]
    ∧ has_char "-" "en_core_web_sm" = false
    ∧ has_char "-" "3.0.0" = false
    ∧ has_char "/" "en_core_web_sm" = false
    ∧ has_char "/" "3.0.0" = false
    ∧ String.prefix "en_core_web_sm-3.0.0" (basename MoreSamples.wheel_path)
      = true.
Proof.
  apply (push_names_rebuild_filename MoreSamples.wheel_path
           MoreSamples.wheel_names).
  reflexivity.
Defined.

Lemma ends_with_sep_append (a b : string) :
  b ≠ "" → ends_with_sep (a +:+ b) = ends_with_sep b.
Proof.
  intros Hb. induction a as [|x a IH]; [done|]. rewrite append_cons.
  cbn [ends_with_sep]. destruct (a +:+ b) eqn:E; [|done].
  destruct a; [|done]. by destruct Hb.
Qed.

Lemma ends_with_sep_has_char (s : string) :
  has_char "/" s = false → ends_with_sep s = false.
Proof.
  induction s as [|x s IH]; [done|]. cbn [has_char ends_with_sep].
  intros [Hx Hs]%orb_false_iff. destruct s; [done|]. by apply IH.
Qed.

Lemma hub_join (r : string) : os_path_join "hub" r = "hub/" +:+ r.
Proof. reflexivity. Qed.

Lemma os_path_join_plain (a b : string) :
  a ≠ "" → ends_with_sep a = false → os_path_join a b = a +:+ "/" +:+ b.
Proof.
  intros Ha Hs. unfold os_path_join. rewrite Hs.
  by apply String.eqb_neq in Ha as ->.
Qed.

(** X17. The directory [push] lists after the extraction is the base name
    under [hub], so every archive member selected for extraction lies under
    that directory's path. *)
Theorem extracted_dir_holds_the_extracted_members
    (whl_path : string) (names : Push.push_names) (namelist : list string) :
  Push.push_derived_names whl_path = Unpacked names →
  Push.extracted_dir names = "hub/" +:+ Push.base_name names
  ∧ ∀ member, member ∈ Push.extracted_members (Push.base_name names) namelist →
              String.prefix (Push.extracted_dir names) ("hub/" +:+ member) = true.
Proof.
  intros Hnames.
  pose proof (repo_name_no_slash whl_path names Hnames) as Hslash.
  assert (Hdir : Push.extracted_dir names = "hub/" +:+ Push.base_name names).
  { revert Hnames Hslash. unfold Push.push_derived_names.
    destruct (str_split "-" (basename whl_path))
      as [|r [|v [|a [|b [|c [|g l]]]]]]; try discriminate.
    intros [= <-]. cbn [Push.repo_name Push.extracted_dir Push.base_name]. intros Hr.
    destruct (String.eqb_spec r "") as [->|Hne]; [reflexivity|].
    rewrite hub_join.
    rewrite (os_path_join_plain ("hub/" +:+ r)), (os_path_join_plain r);
      [by rewrite !append_assoc|done|by apply ends_with_sep_has_char|..].
    - by destruct r.
    - rewrite ends_with_sep_append by done. by apply ends_with_sep_has_char. }
  split; [done|]. intros member Hm. rewrite Hdir.
  unfold Push.extracted_members in Hm.
  apply list_elem_of_In, filter_In in Hm as [_ Hm]. exact Hm.
Qed.

Lemma extracted_dir_holds_the_extracted_members_witness :
  let namelist :=
    ["en_core_web_sm/en_core_web_sm-3.0.0/meta.json";
     "en_core_web_sm/__init__.py"] in
  Push.extracted_dir MoreSamples.wheel_names
  = "hub/" +:+ Push.base_name MoreSamples.wheel_names
  ∧ ∀ member,
      member ∈ Push.extracted_members
                 (Push.base_name MoreSamples.wheel_names) namelist →
      String.prefix (Push.extracted_dir MoreSamples.wheel_names)
        ("hub/" +:+ member) = true.
Proof.
  intros namelist.
  apply (extracted_dir_holds_the_extracted_members MoreSamples.wheel_path
           MoreSamples.wheel_names namelist).
  reflexivity.
Defined.

(** ** When a run succeeds *)

(** X18. A run of [_create_model_card] can only succeed when [meta.json] is
    a readable file that decodes and loads and the card can be built from
    it, and [README.md] is not a directory and, if it is a file, is readable,
    writable and decodes. *)
Theorem _create_model_card_success_needs
    (yaml_dump : value → string) (json_load : string → result value)
    (decodes : string → bool)
    (repo_name repo_dir : string) (fs fs' : filesystem) :
  _create_model_card yaml_dump json_load decodes repo_name repo_dir fs = Ok fs' →
  (∃ f w data md,
     fs !! os_path_join repo_dir "meta.json" = Some (File f true w)
     ∧ decodes f = true
     ∧ json_load (universal_newlines f) = Ok data
     ∧ card_metadata repo_name data = Ok md)
  ∧ fs !! os_path_join repo_dir "README.md" ≠ Some Dir
  ∧ ∀ c r w', fs !! os_path_join repo_dir "README.md" = Some (File c r w') →
              r = true ∧ w' = true ∧ decodes c = true.
Proof.
  intros Hrun.
  destruct (_create_model_card_Ok_inv yaml_dump json_load decodes repo_name
              repo_dir fs fs' Hrun)
    as (f & w & data & md & Hm & Hd & Hj & Hc & Hre).
  unfold can_rewrite in Hre. split_and!.
  - by exists f, w, data, md.
  - intros E. by rewrite E in Hre.
  - intros c r w' E. rewrite E in Hre.
    by apply andb_prop in Hre as [[-> ->]%andb_prop ->].
Qed.

Lemma _create_model_card_success_needs_witness :
  (∃ f w data md,
     Samples.repo_files !! os_path_join "hub/m" "meta.json"
     = Some (File f true w)
     ∧ Samples.ascii_only f = true
     ∧ Samples.load_ner_manifest (universal_newlines f) = Ok data
     ∧ card_metadata "m" data = Ok md)
  ∧ Samples.repo_files !! os_path_join "hub/m" "README.md" ≠ Some Dir
  ∧ ∀ c r w',
      Samples.repo_files !! os_path_join "hub/m" "README.md"
      = Some (File c r w') →
      r = true ∧ w' = true ∧ Samples.ascii_only c = true.
Proof.
  apply (_create_model_card_success_needs Samples.dump_keys
           Samples.load_ner_manifest Samples.ascii_only "m" "hub/m"
           Samples.repo_files
           (<[os_path_join "hub/m" "README.md" :=
                File (metadata_section (Samples.dump_keys (VDict Samples.ner_card))
                      +:+ universal_newlines
                            (prior_content (os_path_join "hub/m" "README.md")
                               Samples.repo_files))
                  true true]> Samples.repo_files)).
  apply (_create_model_card_run Samples.dump_keys Samples.load_ner_manifest
           Samples.ascii_only "m" "hub/m" "ner" false Samples.repo_files
           (VDict Samples.ner_manifest) Samples.ner_card); reflexivity.
Defined.

(** ** Further scenarios *)

Example mixed_components_scenario :
  component_tags MoreSamples.mixed_components
  = ["spacy"; "text-classification"; "token-classification"].
Proof. reflexivity. Qed.

Example wheel_scenario :
  Push.push_derived_names MoreSamples.wheel_path
  = Unpacked MoreSamples.wheel_names.
Proof. reflexivity. Qed.

Example hyphenated_package_scenario :
  Push.push_derived_names "dist/en-core-web-sm-3.0.0-py3-none-any.whl"
  = ValueError.
Proof. reflexivity. Qed.

Example list_performance_scenario :
  card_metadata "m"
    (VDict [("lang", VStr "en"); ("components", VList []);
            ("performance", VList [])])
  = Ok [("tags", VList [VStr "spacy"]); ("language", VList [VStr "en"]);
        ("model-index", VDict [("name", VStr "m"); ("results", VList [])])].
Proof. reflexivity. Qed.
